(** * Client credential resolution of the kes command line (cmd/kes)

    A shallow embedding of [newClient], [isTerm] and [decodePrivateKey]
    together with the properties of the credential-resolution design.

    The program talks to the operating system (environment, files,
    terminal) and to library collaborators (PEM, X.509, TLS, the KES SDK).
    The operating system is a read-only [World]; the collaborators are the
    fields of a [Library]; every interaction is recorded in a trace, and
    [cli.Fatalf] ends the run. *)

From Stdlib Require Import String Ascii ZArith List Lia Bool.
From Stdlib.Strings Require Import Byte.
From stdpp Require Import base option gmap strings list.

Open Scope Z_scope.
Open Scope string_scope.
Open Scope list_scope.

(** ** Go values *)

#[export] Instance byte_eq_decision : EqDecision byte := Byte.byte_eq_dec.

Module errors.

(** A Go [error] value.  [errors.New] allocates: two values made from the
    same text are different errors, so the allocation is part of the value.
    [Wrap] is an error that unwraps to another one ([fmt.Errorf] with %w). *)
Inductive error : Type :=
| New (ptr : positive) (text : string)
| Wrap (text : string) (inner : error).

(** [err.Error()], which is what the verb %v prints. *)
Definition Error (e : error) : string :=
  match e with
  | New _ s => s
  | Wrap s _ => s
  end.

Fixpoint eqb (a b : error) : bool :=
  match a, b with
  | New p s, New q t => Pos.eqb p q && String.eqb s t
  | Wrap s x, Wrap t y => String.eqb s t && eqb x y
  | _, _ => false
  end.

(** [errors.Is]: the error or one it wraps is the target. *)
Fixpoint Is (err target : error) : bool :=
  eqb err target ||
  match err with
  | New _ _ => false
  | Wrap _ inner => Is inner target
  end.

End errors.

Abbreviation error := errors.error.

(** A Go result pair [(v, err)] with [err == nil] or not. *)
Inductive result (A : Type) : Type :=
| Ok (v : A)
| Err (err : error).
Arguments Ok {A} v.
Arguments Err {A} err.

Module strings.

(** The six ASCII bytes of the table [asciiSpace]:
    tab, newline, vertical tab, form feed, carriage return, space. *)
Definition asciiSpace (c : ascii) : bool :=
  let n := nat_of_ascii c in
  ((9 <=? n) && (n <=? 13) || (n =? 32))%nat.

(** [utf8.RuneSelf]: bytes below it are single-byte runes. *)
Definition RuneSelf : nat := 128.

Definition isASCII (c : ascii) : bool := (nat_of_ascii c <? RuneSelf)%nat.

(** [strings.HasSuffix]. *)
Definition HasSuffix (s suffix : string) : bool :=
  (String.length suffix <=? String.length s)%nat
  && String.eqb
       (substring (String.length s - String.length suffix)
                  (String.length suffix) s)
       suffix.

Fixpoint lastByte (s : string) : option ascii :=
  match s with
  | EmptyString => None
  | String c EmptyString => Some c
  | String _ s' => lastByte s'
  end.

(** The second loop of [TrimSpace]: [stop] moves left over ASCII space. *)
Fixpoint dropRightAsciiSpace (s : string) : string :=
  match s with
  | EmptyString => EmptyString
  | String c s' =>
      match dropRightAsciiSpace s' with
      | EmptyString => if asciiSpace c then EmptyString else String c EmptyString
      | r => String c r
      end
  end.

Section TrimSpace.
(** The Unicode-aware fall-backs [TrimFunc(s, unicode.IsSpace)] and
    [TrimRightFunc(s, unicode.IsSpace)] of the standard library. *)
Variables TrimFunc_IsSpace TrimRightFunc_IsSpace : string -> string.

(** From the first non-space byte on: trim the right end. *)
Definition trimRight (s : string) : string :=
  let kept := dropRightAsciiSpace s in
  match lastByte kept with
  | Some c => if isASCII c then kept else TrimRightFunc_IsSpace kept
  | None => kept
  end.

(** [strings.TrimSpace]: the ASCII fast path, byte by byte from the left,
    handing over to the Unicode routine at the first non-ASCII byte. *)
Fixpoint TrimSpace (s : string) : string :=
  match s with
  | EmptyString => EmptyString
  | String c s' =>
      if negb (isASCII c) then TrimFunc_IsSpace s
      else if asciiSpace c then TrimSpace s'
      else trimRight s
  end.
End TrimSpace.

End strings.

Module pem.

(** [pem.Block]. *)
Record Block : Type := {
  Type_ : string;
  Headers : gmap string string;
  Bytes : list byte;
}.

End pem.

Module tls.

Section Config.
Variable Certificate : Type.

(** [x509.CertPool], as the list of its DER certificates. *)
Definition CertPool : Type := list (list byte).

(** The fields of [tls.Config] that a client configuration can set.
    A field left out of a composite literal has its zero value. *)
Record Config : Type := {
  Certificates : list Certificate;
  RootCAs : option CertPool;
  NextProtos : list string;
  ServerName : string;
  ClientCAs : option CertPool;
  InsecureSkipVerify : bool;
  CipherSuites : list Z;
  MinVersion : Z;
  MaxVersion : Z;
  CurvePreferences : list Z;
}.

(** [tls.Config{}]. *)
Definition zero : Config := {|
  Certificates := [];
  RootCAs := None;
  NextProtos := [];
  ServerName := "";
  ClientCAs := None;
  InsecureSkipVerify := false;
  CipherSuites := [];
  MinVersion := 0;
  MaxVersion := 0;
  CurvePreferences := [];
|}.
End Config.

Arguments Certificates {Certificate} _.
Arguments RootCAs {Certificate} _.
Arguments NextProtos {Certificate} _.
Arguments ServerName {Certificate} _.
Arguments ClientCAs {Certificate} _.
Arguments InsecureSkipVerify {Certificate} _.
Arguments CipherSuites {Certificate} _.
Arguments MinVersion {Certificate} _.
Arguments MaxVersion {Certificate} _.
Arguments CurvePreferences {Certificate} _.
Arguments zero {Certificate}.

End tls.

Module kes.

(** The client that [kes.NewClientWithConfig(endpoint, config)] makes is
    known by the two arguments of the call. *)
Inductive Client (Certificate : Type) : Type :=
| NewClientWithConfig (endpoint : string) (config : tls.Config Certificate).
Arguments NewClientWithConfig {Certificate} endpoint config.

Definition endpoint {Certificate} (c : Client Certificate) : string :=
  match c with NewClientWithConfig e _ => e end.

Definition config {Certificate} (c : Client Certificate) : tls.Config Certificate :=
  match c with NewClientWithConfig _ cfg => cfg end.

(** The enclave that the method [client.Enclave(name)] makes is known by
    the client and the name. *)
Inductive Enclave (Certificate : Type) : Type :=
| Client_Enclave (client : Client Certificate) (name : string).
Arguments Client_Enclave {Certificate} client name.

End kes.

Module os.

(** An open file, known by its descriptor. *)
Record File : Type := { Fd : Z }.

Definition Stdin : File := {| Fd := 0 |}.
Definition Stdout : File := {| Fd := 1 |}.
Definition Stderr : File := {| Fd := 2 |}.

End os.

(** ** The operating system and the trace of a run *)

(** What the process finds around it.  Nothing in [newClient] changes it. *)
Record World : Type := {
  (** the environment of the process *)
  environ : gmap string string;
  (** what [os.ReadFile] gives for a name *)
  files : string -> result (list byte);
  (** [term.IsTerminal] of a descriptor *)
  terminal : Z -> bool;
  (** what [term.ReadPassword] gives on a descriptor *)
  password : Z -> result (list byte);
}.

(** One interaction of the process with its surroundings or with a
    collaborator that the design singles out. *)
Inductive Event : Type :=
| EvLookupEnv (key : string)
| EvReadFile (name : string)
| EvWrite (fd : Z) (text : string)
| EvIsTerminal (fd : Z)
| EvReadPassword (fd : Z)
| EvParseAPIKey (s : string)
| EvGenerateCertificate
| EvDecryptPEMBlock
| EvX509KeyPair.

(** How a run ends. [Diverged] stands for a scan of [decodePrivateKey] that
    does not end. *)
Inductive Outcome (A : Type) : Type :=
| Returned (a : A)
| Exited (message : string)
| Diverged.
Arguments Returned {A} a.
Arguments Exited {A} message.
Arguments Diverged {A}.

(** A computation: the interactions in order, and how it ends. *)
Definition M (A : Type) : Type := list Event * Outcome A.

#[export] Instance M_ret : MRet M := fun A a => ([], Returned a).

#[export] Instance M_bind : MBind M := fun A B f m =>
  match m with
  | (t, Returned a) => let '(t', o) := f a in (t ++ t', o)
  | (t, Exited msg) => (t, Exited msg)
  | (t, Diverged) => (t, Diverged)
  end.

Definition emit (e : Event) : M unit := ([e], Returned tt).

Definition trace {A} (m : M A) : list Event := fst m.
Definition outcome {A} (m : M A) : Outcome A := snd m.

(** [if cond { body }] where the body is run for its effect. *)
Definition when (cond : bool) (body : M unit) : M unit :=
  if cond then body else mret tt.

Module cli.

(** Modelled from the spec: [cli.Fatalf] of internal/cli, which is not among
    the sources.  "Every failure in this core terminates the process with
    a non-zero status and a single human-readable message": the run ends
    there with the formatted message, and nothing after the call runs. *)
Definition Fatalf {A} (message : string) : M A := ([], Exited message).

End cli.

Definition newline : string := String (ascii_of_nat 10) EmptyString.

Module fmt.

(** [fmt.Fprint(f, s)]. *)
Definition Fprint (f : os.File) (s : string) : M unit :=
  emit (EvWrite (os.Fd f) s).

(** [fmt.Fprintln(f)]. *)
Definition Fprintln (f : os.File) : M unit :=
  emit (EvWrite (os.Fd f) newline).

End fmt.

Section Program.

Context {APIKey Certificate : Type}.

(** The collaborators of [newClient]: standard library, x/term aside, the
    KES SDK and internal/https.  How each one computes is not part of
    this program. *)
Record Library : Type := {
  TrimFunc_IsSpace : string -> string;
  TrimRightFunc_IsSpace : string -> string;
  pem_Decode : list byte -> option pem.Block * list byte;
  pem_EncodeToMemory : pem.Block -> list byte;
  x509_IsEncryptedPEMBlock : pem.Block -> bool;
  x509_DecryptPEMBlock : pem.Block -> list byte -> result (list byte);
  tls_X509KeyPair : list byte -> list byte -> result Certificate;
  kes_ParseAPIKey : string -> result APIKey;
  kes_GenerateCertificate : APIKey -> result Certificate;
  https_FilterPEM : list byte -> (pem.Block -> bool) -> result (list byte);
}.

Variable L : Library.
Variable w : World.

Definition strings_TrimSpace : string -> string :=
  strings.TrimSpace (TrimFunc_IsSpace L) (TrimRightFunc_IsSpace L).

(** [x509.IncorrectPasswordError], a package variable made by [errors.New]. *)
Definition x509_IncorrectPasswordError : error :=
  errors.New 1 "x509: decryption password incorrect".

(** *** Calls that touch the world *)

(** [os.LookupEnv]: the value and whether the variable is set. *)
Definition os_LookupEnv (key : string) : M (string * bool) :=
  emit (EvLookupEnv key);;
  mret (match environ w !! key with
        | Some v => (v, true)
        | None => ("", false)
        end).

(** [os.Getenv]: the value, and the empty string when the variable is not
    set.  It looks at the environment as [os.LookupEnv] does. *)
Definition os_Getenv (key : string) : M string :=
  emit (EvLookupEnv key);; mret (default "" (environ w !! key)).

Definition os_ReadFile (name : string) : M (result (list byte)) :=
  emit (EvReadFile name);; mret (files w name).

Definition term_IsTerminal (fd : Z) : M bool :=
  emit (EvIsTerminal fd);; mret (terminal w fd).

Definition term_ReadPassword (fd : Z) : M (result (list byte)) :=
  emit (EvReadPassword fd);; mret (password w fd).

Definition ParseAPIKey (s : string) : M (result APIKey) :=
  emit (EvParseAPIKey s);; mret (kes_ParseAPIKey L s).

Definition GenerateCertificate (key : APIKey) : M (result Certificate) :=
  emit EvGenerateCertificate;; mret (kes_GenerateCertificate L key).

Definition DecryptPEMBlock (b : pem.Block) (pw : list byte) : M (result (list byte)) :=
  emit EvDecryptPEMBlock;; mret (x509_DecryptPEMBlock L b pw).

Definition X509KeyPair (certPem keyPem : list byte) : M (result Certificate) :=
  emit EvX509KeyPair;; mret (tls_X509KeyPair L certPem keyPem).

(** *** The program *)

Definition DefaultServer : string := "https://127.0.0.1:7373".
Definition EnvServer : string := "KES_SERVER".
Definition EnvAPIKey : string := "KES_API_KEY".
Definition EnvClientKey : string := "KES_CLIENT_KEY".
Definition EnvClientCert : string := "KES_CLIENT_CERT".

(** [func isTerm(f *os.File) bool] *)
Definition isTerm (f : os.File) : M bool := term_IsTerminal (os.Fd f).

Definition ErrNoPrivateKey : error :=
  errors.New 2 "no PEM-encoded private key found".

(** The test on [next.Type] in [decodePrivateKey]. *)
Definition isPrivateKeyType (ty : string) : bool :=
  String.eqb ty "PRIVATE KEY" || strings.HasSuffix ty " PRIVATE KEY".

(** The loop of [decodePrivateKey]; one unit of fuel per call of
    [pem.Decode].  [None]: the fuel ran out before the loop ended. *)
Fixpoint decodePrivateKey_loop (fuel : nat) (pemBlock : list byte)
  : option (result pem.Block) :=
  match pemBlock with
  | [] => Some (Err ErrNoPrivateKey)
  | _ :: _ =>
      match fuel with
      | O => None
      | S fuel' =>
          let '(next, rest) := pem_Decode L pemBlock in
          match next with
          | None => Some (Err ErrNoPrivateKey)
          | Some next =>
              if isPrivateKeyType (pem.Type_ next) then Some (Ok next)
              else decodePrivateKey_loop fuel' rest
          end
      end
  end.

(** [func decodePrivateKey(pemBlock []byte)], which returns a block and
    an error.  A decoder that consumes input needs at most one call per byte. *)
Definition decodePrivateKey (pemBlock : list byte) : option (result pem.Block) :=
  decodePrivateKey_loop (length pemBlock) pemBlock.

(** [&tls.Config{Certificates: []tls.Certificate{cert},
                 InsecureSkipVerify: insecureSkipVerify}];
    the fields that the literal leaves out are zero. *)
Definition clientConfig (cert : Certificate) (insecureSkipVerify : bool)
  : tls.Config Certificate := {|
  tls.Certificates := [cert];
  tls.RootCAs := None;
  tls.NextProtos := [];
  tls.ServerName := "";
  tls.ClientCAs := None;
  tls.InsecureSkipVerify := insecureSkipVerify;
  tls.CipherSuites := [];
  tls.MinVersion := 0;
  tls.MaxVersion := 0;
  tls.CurvePreferences := [];
|}.

(** [v, err := call; if err != nil { cli.Fatalf(format, err) }] *)
Definition orFatalf {A} (r : result A) (format : string) : M A :=
  match r with
  | Ok v => mret v
  | Err err => cli.Fatalf (format +:+ errors.Error err)
  end.

Definition conflicting (a b : string) : string :=
  "two conflicting environment variables set: unset either '" +:+ a
    +:+ "' or '" +:+ b +:+ "'".

(** The last lines of both paths: the address and the client. *)
Definition connect (cert : Certificate) (insecureSkipVerify : bool)
  : M (kes.Client Certificate) :=
  '(env, ok) ← os_LookupEnv EnvServer;
  let addr := if ok : bool then env else DefaultServer in
  mret (kes.NewClientWithConfig addr (clientConfig cert insecureSkipVerify)).

(** The body of [if len(privateKey.Headers) > 0 && IsEncryptedPEMBlock]:
    the prompt, the password, the decryption; gives the new [keyPem]. *)
Definition unlock (privateKey : pem.Block) : M (list byte) :=
  fmt.Fprint os.Stderr "Enter password for private key: ";;
  r ← term_ReadPassword (os.Fd os.Stderr);
  password ← orFatalf r "failed to read private key password: ";
  fmt.Fprintln os.Stderr;;
  r ← DecryptPEMBlock privateKey password;
  decPrivateKey ←
    match r with
    | Ok v => mret v
    | Err err =>
        when (errors.Is err x509_IncorrectPasswordError)
             (cli.Fatalf "incorrect password");;
        cli.Fatalf ("failed to decrypt private key: " +:+ errors.Error err)
    end;
  mret (pem_EncodeToMemory L
          {| pem.Type_ := pem.Type_ privateKey;
             pem.Headers := ∅;
             pem.Bytes := decPrivateKey |}).

(** The condition
    [len(privateKey.Headers) > 0 && x509.IsEncryptedPEMBlock(privateKey)]. *)
Definition needsPassword (privateKey : pem.Block) : bool :=
  bool_decide (0 < size (pem.Headers privateKey))%nat
  && x509_IsEncryptedPEMBlock L privateKey.

(** [func newClient(insecureSkipVerify bool) *kes.Client] *)
Definition newClient (insecureSkipVerify : bool) : M (kes.Client Certificate) :=
  '(apiKey, ok) ← os_LookupEnv EnvAPIKey;
  if ok : bool then
    '(_, ok) ← os_LookupEnv EnvClientCert;
    when ok (cli.Fatalf (conflicting EnvAPIKey EnvClientCert));;
    '(_, ok) ← os_LookupEnv EnvClientKey;
    when ok (cli.Fatalf (conflicting EnvAPIKey EnvClientKey));;
    r ← ParseAPIKey apiKey;
    key ← orFatalf r "invalid API key: ";
    r ← GenerateCertificate key;
    cert ← orFatalf r "failed to generate client certificate from API key: ";
    connect cert insecureSkipVerify
  else
    '(certPath, ok) ← os_LookupEnv EnvClientCert;
    when (negb ok)
      (cli.Fatalf ("no TLS client certificate. Environment variable '"
                     +:+ EnvClientCert +:+ "' is not set"));;
    when (String.eqb (strings_TrimSpace certPath) "")
      (cli.Fatalf ("no TLS client certificate. Environment variable '"
                     +:+ EnvClientCert +:+ "' is empty"));;
    '(keyPath, ok) ← os_LookupEnv EnvClientKey;
    when (negb ok)
      (cli.Fatalf ("no TLS private key. Environment variable '"
                     +:+ EnvClientKey +:+ "' is not set"));;
    when (String.eqb (strings_TrimSpace keyPath) "")
      (cli.Fatalf ("no TLS private key. Environment variable '"
                     +:+ EnvClientKey +:+ "' is empty"));;
    r ← os_ReadFile certPath;
    certPem ← orFatalf r "failed to load TLS certificate: ";
    certPem ← orFatalf
      (https_FilterPEM L certPem
         (fun b => String.eqb (pem.Type_ b) "CERTIFICATE"))
      "failed to load TLS certificate: ";
    r ← os_ReadFile keyPath;
    keyPem ← orFatalf r "failed to load TLS private key: ";
    match decodePrivateKey keyPem with
    | None => ([], Diverged)
    | Some r =>
        privateKey ← orFatalf r "failed to read TLS private key: ";
        keyPem ←
          (if needsPassword privateKey then unlock privateKey
           else mret keyPem);
        r ← X509KeyPair certPem keyPem;
        cert ← orFatalf r "failed to load TLS private key or certificate: ";
        connect cert insecureSkipVerify
    end.

(** [func newEnclave(name string, insecureSkipVerify bool) *kes.Enclave] *)
Definition newEnclave (name : string) (insecureSkipVerify : bool)
  : M (kes.Enclave Certificate) :=
  client ← newClient insecureSkipVerify;
  name ← (if String.eqb name "" then os_Getenv "KES_ENCLAVE" else mret name);
  mret (kes.Client_Enclave client name).

(** *** The design's reading of the key scan *)

(** The decoded PEM stream of a buffer: the blocks that decoding yields from
    left to right, until the input is used up or holds no further block.
    As in the loop, one unit of fuel per call of [pem.Decode]. *)
Fixpoint pemStream_upto (fuel : nat) (data : list byte) : list pem.Block :=
  match fuel, data with
  | S fuel', _ :: _ =>
      match pem_Decode L data with
      | (Some blk, rest) => blk :: pemStream_upto fuel' rest
      | (None, _) => []
      end
  | _, _ => []
  end.

Definition pemStream (data : list byte) : list pem.Block :=
  pemStream_upto (length data) data.

End Program.

(** The type is exactly "PRIVATE KEY" or ends with the suffix " PRIVATE KEY". *)
Definition wantedType (ty : string) : Prop :=
  ty = "PRIVATE KEY" \/ exists front, ty = front +:+ " PRIVATE KEY".

(** [b] is the first block of the stream with a wanted type: the blocks
    before it are skipped. *)
Definition firstWanted (stream : list pem.Block) (b : pem.Block) : Prop :=
  exists skipped rest,
    stream = skipped ++ b :: rest
    /\ wantedType (pem.Type_ b)
    /\ Forall (fun x => ~ wantedType (pem.Type_ x)) skipped.

Definition noneWanted (stream : list pem.Block) : Prop :=
  Forall (fun x => ~ wantedType (pem.Type_ x)) stream.

(** *** Where a run stands *)

(** The file-pair path up to the matched private-key block: no API key, both
    paths set and not blank, both files read, the certificate blocks
    [certPem] kept, and [privateKey] found in [keyPem]. *)
Record FilePair {APIKey Certificate : Type} (L : @Library APIKey Certificate)
    (w : World) (certPath keyPath : string) (certPem keyPem : list byte)
    (privateKey : pem.Block) : Prop := {
  fp_no_api_key : environ w !! EnvAPIKey = None;
  fp_cert_path : environ w !! EnvClientCert = Some certPath;
  fp_cert_path_not_blank : strings_TrimSpace L certPath <> "";
  fp_key_path : environ w !! EnvClientKey = Some keyPath;
  fp_key_path_not_blank : strings_TrimSpace L keyPath <> "";
  fp_cert_file : exists raw,
      files w certPath = Ok raw
      /\ https_FilterPEM L raw (fun b => String.eqb (pem.Type_ b) "CERTIFICATE")
         = Ok certPem;
  fp_key_file : files w keyPath = Ok keyPem;
  fp_private_key : decodePrivateKey L keyPem = Some (Ok privateKey);
}.

(** The events of a run on the file-pair path before the key is looked at. *)
Definition filePairPrefix (certPath keyPath : string) : list Event :=
  [EvLookupEnv EnvAPIKey; EvLookupEnv EnvClientCert; EvLookupEnv EnvClientKey;
   EvReadFile certPath; EvReadFile keyPath].

Definition prompt : Event :=
  EvWrite (os.Fd os.Stderr) "Enter password for private key: ".

(** A computation that first leaves the events [t]. *)
Definition after {A} (t : list Event) (m : M A) : M A := (t ++ fst m, snd m).

(** Classes of events. *)
Definition isLookup (e : Event) : bool :=
  match e with EvLookupEnv _ => true | _ => false end.

Definition isFileIO (e : Event) : bool :=
  match e with EvReadFile _ => true | _ => false end.

Definition isTerminalIO (e : Event) : bool :=
  match e with
  | EvWrite _ _ | EvIsTerminal _ | EvReadPassword _ => true
  | _ => false
  end.

Definition isTerminalQuery (e : Event) : bool :=
  match e with EvIsTerminal _ => true | _ => false end.





(** Every byte is one of the six ASCII white-space bytes. *)
Fixpoint allAsciiSpace (s : string) : bool :=
  match s with
  | EmptyString => true
  | String c s' => strings.asciiSpace c && allAsciiSpace s'
  end.

(** What [newClient] itself may leave in a trace besides look-ups, reads and
    library calls: the prompt and the bare newline on standard error, and
    the password read. *)
Definition ownEvent (e : Event) : bool :=
  match e with
  | EvIsTerminal _ => false
  | EvWrite fd text =>
      Z.eqb fd (os.Fd os.Stderr)
      && (String.eqb text "Enter password for private key: "
          || String.eqb text newline)
  | EvReadPassword fd => Z.eqb fd (os.Fd os.Stderr)
  | _ => true
  end.

Definition asksPassword (e : Event) : bool :=
  match e with
  | EvWrite _ _ | EvReadPassword _ => true
  | _ => false
  end.

(** The same client with another skip-verification flag. *)
Definition withFlag {Certificate} (flag : bool) (c : kes.Client Certificate)
  : kes.Client Certificate :=
  match c with
  | kes.NewClientWithConfig addr cfg =>
      kes.NewClientWithConfig addr
        {| tls.Certificates := tls.Certificates cfg;
           tls.RootCAs := tls.RootCAs cfg;
           tls.NextProtos := tls.NextProtos cfg;
           tls.ServerName := tls.ServerName cfg;
           tls.ClientCAs := tls.ClientCAs cfg;
           tls.InsecureSkipVerify := flag;
           tls.CipherSuites := tls.CipherSuites cfg;
           tls.MinVersion := tls.MinVersion cfg;
           tls.MaxVersion := tls.MaxVersion cfg;
           tls.CurvePreferences := tls.CurvePreferences cfg |}
  end.

Definition mapOutcome {A B} (f : A -> B) (o : Outcome A) : Outcome B :=
  match o with
  | Returned a => Returned (f a)
  | Exited message => Exited message
  | Diverged => Diverged
  end.

(** Every byte is below [utf8.RuneSelf]. *)
Fixpoint allASCII (s : string) : bool :=
  match s with
  | EmptyString => true
  | String c s' => strings.isASCII c && allASCII s'
  end.

(** ** Test doubles

    A small library and a few worlds on which the program can be run.  In
    the stub PEM format one byte stands for one block. *)

Module Double.

Definition dekInfo : gmap string string :=
  {[ "Proc-Type" := "4,ENCRYPTED"; "DEK-Info" := "AES-256-CBC,00" ]}.

Definition unknownCipher : gmap string string :=
  {[ "Proc-Type" := "4,ENCRYPTED"; "DEK-Info" := "ROT-13,00" ]}.

Definition block (ty : string) (h : gmap string string) (b : byte) : pem.Block :=
  {| pem.Type_ := ty; pem.Headers := h; pem.Bytes := [b] |}.

(** N: a note, C: a certificate, P: a PKCS#8 key, R: an RSA key,
    E: an encrypted RSA key, U: a key encrypted with an unknown cipher,
    S: an EC key with a header but no encryption. *)
Definition blockOf (b : byte) : option pem.Block :=
  match b with
  | "N"%byte => Some (block "NOTE" ∅ b)
  | "C"%byte => Some (block "CERTIFICATE" ∅ b)
  | "P"%byte => Some (block "PRIVATE KEY" ∅ b)
  | "R"%byte => Some (block "RSA PRIVATE KEY" ∅ b)
  | "E"%byte => Some (block "RSA PRIVATE KEY" dekInfo b)
  | "U"%byte => Some (block "RSA PRIVATE KEY" unknownCipher b)
  | "S"%byte => Some (block "EC PRIVATE KEY" {[ "Comment" := "lab" ]} b)
  | _ => None
  end.

Definition Decode (data : list byte) : option pem.Block * list byte :=
  match data with
  | [] => (None, data)
  | b :: rest =>
      match blockOf b with
      | Some blk => (Some blk, rest)
      | None => (None, data)
      end
  end.

Definition EncodeToMemory (b : pem.Block) : list byte :=
  if String.eqb (pem.Type_ b) "RSA PRIVATE KEY" then ["R"%byte] else pem.Bytes b.

Definition IsEncryptedPEMBlock (b : pem.Block) : bool :=
  bool_decide (is_Some (pem.Headers b !! "DEK-Info")).

Definition secret : list byte := list_byte_of_string "secret".

Definition DecryptPEMBlock (b : pem.Block) (pw : list byte) : result (list byte) :=
  if bool_decide (pem.Headers b !! "DEK-Info" = Some "AES-256-CBC,00") then
    if bool_decide (pw = secret) then Ok (pem.Bytes b)
    else Err (errors.New 1 "x509: decryption password incorrect")
  else Err (errors.New 3 "x509: unknown encryption mode").

(** A key pair is shown as text: the certificate, a plus sign, the key. *)
Definition X509KeyPair (certPem keyPem : list byte) : result string :=
  match certPem, keyPem with
  | _ :: _, _ :: _ =>
      Ok (string_of_list_byte certPem +:+ "+" +:+ string_of_list_byte keyPem)
  | _, _ => Err (errors.New 4 "tls: failed to find any PEM data in input")
  end.

Definition ParseAPIKey (s : string) : result string :=
  if String.prefix "kes:v1:" s then Ok s
  else Err (errors.New 5 "kes: invalid API key: missing API key prefix").

Definition GenerateCertificate (key : string) : result string :=
  Ok ("derived from " +:+ key).

Definition FilterPEM (data : list byte) (keep : pem.Block -> bool) : result (list byte) :=
  match List.filter (fun b => from_option keep false (blockOf b)) data with
  | [] => Err (errors.New 6 "https: no valid PEM data")
  | kept => Ok kept
  end.

Definition lib : @Library string string := {|
  TrimFunc_IsSpace := id;
  TrimRightFunc_IsSpace := id;
  pem_Decode := Decode;
  pem_EncodeToMemory := EncodeToMemory;
  x509_IsEncryptedPEMBlock := IsEncryptedPEMBlock;
  x509_DecryptPEMBlock := DecryptPEMBlock;
  tls_X509KeyPair := X509KeyPair;
  kes_ParseAPIKey := ParseAPIKey;
  kes_GenerateCertificate := GenerateCertificate;
  https_FilterPEM := FilterPEM;
|}.

Definition disk (name : string) : result (list byte) :=
  if String.eqb name "/etc/kes/client.crt" then Ok (list_byte_of_string "NCC")
  else if String.eqb name "/etc/kes/client.key" then Ok (list_byte_of_string "CR")
  else if String.eqb name "/etc/kes/locked.key" then Ok (list_byte_of_string "CE")
  else if String.eqb name "/etc/kes/odd.key" then Ok (list_byte_of_string "U")
  else Err (errors.New 7 ("open " +:+ name +:+ ": no such file or directory")).

Definition ENOTTY : error := errors.New 8 "inappropriate ioctl for device".

Definition world (env : list (string * string)) (tty : bool)
           (pw : result (list byte)) : World := {|
  environ := list_to_map env;
  files := disk;
  terminal := fun _ => tty;
  password := fun _ => pw;
|}.

Definition apiKey : string := "kes:v1:AAEC".


Definition files (key : string) : list (string * string) :=
  [("KES_CLIENT_CERT", "/etc/kes/client.crt"); ("KES_CLIENT_KEY", key)].

(** The worlds of the examples. *)
Definition withAPIKey : World := world [("KES_API_KEY", apiKey)] true (Ok []).

Definition withAPIKeyAndEmptyServer : World :=
  world [("KES_API_KEY", apiKey); ("KES_SERVER", "")] true (Ok []).

Definition withConflict : World :=
  world [("KES_API_KEY", apiKey); ("KES_CLIENT_KEY", "")] true (Ok []).

Definition withFiles : World :=
  world (files "/etc/kes/client.key") true (Ok []).

Definition withNothing : World := world [] true (Ok []).

Definition withEmptyCert : World :=
  world [("KES_CLIENT_CERT", "")] true (Ok []).

Definition withBlankKey : World :=
  world (files (String (ascii_of_nat 9) " ")) true (Ok []).

(** An encrypted key, no terminal: the password cannot be read. *)
Definition lockedNoTerminal : World :=
  world (files "/etc/kes/locked.key") false (Err ENOTTY).



(** An encrypted key at a terminal, with the password typed. *)
Definition lockedAtTerminal (typed : list byte) : World :=
  world (files "/etc/kes/locked.key") true (Ok typed).

(** A certificate path with a space in front of the name. *)
Definition withSpaceBeforeCert : World :=
  world [("KES_CLIENT_CERT", " /etc/kes/client.crt");
         ("KES_CLIENT_KEY", "/etc/kes/client.key")] true (Ok []).

(** A key file that is missing, and one that holds certificates only. *)
Definition withMissingKey : World :=
  world (files "/etc/kes/missing.key") true (Ok []).

Definition withCertAsKey : World :=
  world (files "/etc/kes/client.crt") true (Ok []).


(** An API key that does not parse. *)
Definition withBadAPIKey : World :=
  world [("KES_API_KEY", "secret"); ("KES_SERVER", "https://kes:7373")]
        true (Ok []).

(** The API key and an enclave. *)
Definition withEnclave : World :=
  world [("KES_API_KEY", apiKey); ("KES_ENCLAVE", "tenant-1")] true (Ok []).

End Double.


(** ** Properties *)

(** *** Reading a run *)

Lemma bind_Returned {A B} (t : list Event) (a : A) (f : A -> M B) :
  (t, Returned a) ≫= f = after t (f a).
Proof. unfold mbind, M_bind, after. destruct (f a); reflexivity. Qed.

Lemma bind_Exited {A B} (t : list Event) (msg : string) (f : A -> M B) :
  (t, Exited msg) ≫= f = (t, Exited msg).
Proof. reflexivity. Qed.

Lemma bind_Diverged {A B} (t : list Event) (f : A -> M B) :
  (t, @Diverged A) ≫= f = (t, Diverged).
Proof. reflexivity. Qed.

Lemma bind_after {A B} (t : list Event) (m : M A) (f : A -> M B) :
  after t m ≫= f = after t (m ≫= f).
Proof.
  destruct m as [t' [a | msg | ]]; unfold after, mbind, M_bind; cbn;
    try reflexivity.
  destruct (f a); cbn. now rewrite app_assoc.
Qed.

Lemma after_after {A} (t t' : list Event) (m : M A) :
  after t (after t' m) = after (t ++ t') m.
Proof. unfold after; cbn. now rewrite app_assoc. Qed.

Lemma after_pair {A} (t t' : list Event) (o : Outcome A) :
  after t (t', o) = (t ++ t', o).
Proof. reflexivity. Qed.

Lemma outcome_after {A} (t : list Event) (m : M A) :
  outcome (after t m) = outcome m.
Proof. reflexivity. Qed.

Lemma trace_after {A} (t : list Event) (m : M A) :
  trace (after t m) = t ++ trace m.
Proof. reflexivity. Qed.

Lemma bind_mret {A B} (a : A) (f : A -> M B) : mret a ≫= f = f a.
Proof. unfold mret, M_ret, mbind, M_bind. now destruct (f a). Qed.

Lemma bind_Fatalf {A B} (msg : string) (f : A -> M B) :
  cli.Fatalf msg ≫= f = cli.Fatalf msg.
Proof. reflexivity. Qed.

Lemma bind_emit {B} (e : Event) (f : unit -> M B) :
  emit e ≫= f = after [e] (f tt).
Proof. unfold emit. apply bind_Returned. Qed.

Lemma after_mret {A} (t : list Event) (a : A) :
  after t (mret a) = (t, Returned a).
Proof. unfold after, mret, M_ret; cbn. now rewrite app_nil_r. Qed.

Lemma after_Fatalf {A} (t : list Event) (msg : string) :
  after t (@cli.Fatalf A msg) = (t, Exited msg).
Proof. unfold after, cli.Fatalf; cbn. now rewrite app_nil_r. Qed.

Arguments M_bind : simpl never.
Arguments after : simpl never.
Arguments connect : simpl never.
Arguments unlock : simpl never.
Arguments decodePrivateKey : simpl never.
Arguments needsPassword : simpl never.
Arguments strings_TrimSpace : simpl never.

Create Rewrite HintDb run.

#[export] Hint Rewrite @bind_Returned @bind_Exited @bind_Diverged @bind_after
  @bind_mret @bind_Fatalf @bind_emit @after_after @after_mret @after_Fatalf
  @after_pair : run.

(** Symbolic execution: the calls at the head of a computation are replaced
    by the events they leave and the value they give. *)
Ltac run := repeat first [ progress (autorewrite with run) | progress cbn ].

(** A case analysis on what the computation at the head waits for. *)
Ltac head_case :=
  match goal with
  | |- context [match ?x with _ => _ end] =>
      lazymatch x with
      | context [match ?y with _ => _ end] => destruct y eqn:?
      | _ => destruct x eqn:?
      end
  end.

Ltac unfold_calls :=
  unfold os_LookupEnv, os_ReadFile, ParseAPIKey, GenerateCertificate,
    X509KeyPair, DecryptPEMBlock, term_ReadPassword, term_IsTerminal,
    orFatalf, when, fmt.Fprint, fmt.Fprintln.

(** *** Strings *)

Lemma asciiSpace_isASCII (c : ascii) :
  strings.asciiSpace c = true -> strings.isASCII c = true.
Proof.
  unfold strings.asciiSpace, strings.isASCII, strings.RuneSelf.
  rewrite orb_true_iff, andb_true_iff, !Nat.leb_le, Nat.eqb_eq, Nat.ltb_lt.
  lia.
Qed.

(** White space of the ASCII table alone is trimmed to nothing, and the
    Unicode routines are not asked. *)
Lemma TrimSpace_allAsciiSpace (f g : string -> string) (s : string) :
  allAsciiSpace s = true -> strings.TrimSpace f g s = "".
Proof.
  induction s as [| c s IH]; [reflexivity |].
  cbn [allAsciiSpace]. rewrite andb_true_iff. intros [Hc Hs].
  cbn [strings.TrimSpace].
  rewrite (asciiSpace_isASCII _ Hc), Hc. cbn [negb]. now apply IH.
Qed.

(** *** Line ends on standard error *)



Section Resolution.

Context {APIKey Certificate : Type}.
Variable L : @Library APIKey Certificate.
Variable w : World.
Variable insecureSkipVerify : bool.

(** The last lines of both paths always return, with the address taken from
    the environment or else the default. *)
Lemma connect_eq (cert : Certificate) :
  connect w cert insecureSkipVerify =
    ([EvLookupEnv EnvServer],
     Returned (kes.NewClientWithConfig
                 (default DefaultServer (environ w !! EnvServer))
                 (clientConfig cert insecureSkipVerify))).
Proof.
  unfold connect. unfold_calls. run.
  destruct (environ w !! EnvServer); reflexivity.
Qed.

(** The whole run when the API key is set. *)
Lemma newClient_api_key (apiKey : string) :
  environ w !! EnvAPIKey = Some apiKey ->
  newClient L w insecureSkipVerify =
    match environ w !! EnvClientCert, environ w !! EnvClientKey with
    | Some _, _ =>
        ([EvLookupEnv EnvAPIKey; EvLookupEnv EnvClientCert],
         Exited (conflicting EnvAPIKey EnvClientCert))
    | None, Some _ =>
        ([EvLookupEnv EnvAPIKey; EvLookupEnv EnvClientCert;
          EvLookupEnv EnvClientKey],
         Exited (conflicting EnvAPIKey EnvClientKey))
    | None, None =>
        after [EvLookupEnv EnvAPIKey; EvLookupEnv EnvClientCert;
               EvLookupEnv EnvClientKey; EvParseAPIKey apiKey]
          match kes_ParseAPIKey L apiKey with
          | Err err => cli.Fatalf ("invalid API key: " +:+ errors.Error err)
          | Ok key =>
              after [EvGenerateCertificate]
                match kes_GenerateCertificate L key with
                | Err err =>
                    cli.Fatalf
                      ("failed to generate client certificate from API key: "
                         +:+ errors.Error err)
                | Ok cert => connect w cert insecureSkipVerify
                end
          end
    end.
Proof.
  intros Hapi. unfold newClient. unfold_calls. run.
  rewrite Hapi. run.
  destruct (environ w !! EnvClientCert); run; [reflexivity |].
  destruct (environ w !! EnvClientKey); run; [reflexivity |].
  destruct (kes_ParseAPIKey L apiKey) as [key | err]; run; [| reflexivity].
  destruct (kes_GenerateCertificate L key) as [cert | err]; run; reflexivity.
Qed.

(** The four refusals at the head of the file-pair path. *)
Lemma newClient_cert_not_set :
  environ w !! EnvAPIKey = None ->
  environ w !! EnvClientCert = None ->
  newClient L w insecureSkipVerify =
    ([EvLookupEnv EnvAPIKey; EvLookupEnv EnvClientCert],
     Exited "no TLS client certificate. Environment variable 'KES_CLIENT_CERT' is not set").
Proof.
  intros Hapi Hcert. unfold newClient. unfold_calls. run.
  rewrite Hapi. run. rewrite Hcert. run. reflexivity.
Qed.

Lemma newClient_cert_blank (certPath : string) :
  environ w !! EnvAPIKey = None ->
  environ w !! EnvClientCert = Some certPath ->
  strings_TrimSpace L certPath = "" ->
  newClient L w insecureSkipVerify =
    ([EvLookupEnv EnvAPIKey; EvLookupEnv EnvClientCert],
     Exited "no TLS client certificate. Environment variable 'KES_CLIENT_CERT' is empty").
Proof.
  intros Hapi Hcert Hblank. unfold newClient. unfold_calls. run.
  rewrite Hapi. run. rewrite Hcert. run. rewrite Hblank. run. reflexivity.
Qed.

Lemma newClient_key_not_set (certPath : string) :
  environ w !! EnvAPIKey = None ->
  environ w !! EnvClientCert = Some certPath ->
  strings_TrimSpace L certPath <> "" ->
  environ w !! EnvClientKey = None ->
  newClient L w insecureSkipVerify =
    ([EvLookupEnv EnvAPIKey; EvLookupEnv EnvClientCert; EvLookupEnv EnvClientKey],
     Exited "no TLS private key. Environment variable 'KES_CLIENT_KEY' is not set").
Proof.
  intros Hapi Hcert Hfull Hkey. unfold newClient. unfold_calls. run.
  rewrite Hapi. run. rewrite Hcert. run.
  apply String.eqb_neq in Hfull. rewrite Hfull. run.
  rewrite Hkey. run. reflexivity.
Qed.

Lemma newClient_key_blank (certPath keyPath : string) :
  environ w !! EnvAPIKey = None ->
  environ w !! EnvClientCert = Some certPath ->
  strings_TrimSpace L certPath <> "" ->
  environ w !! EnvClientKey = Some keyPath ->
  strings_TrimSpace L keyPath = "" ->
  newClient L w insecureSkipVerify =
    ([EvLookupEnv EnvAPIKey; EvLookupEnv EnvClientCert; EvLookupEnv EnvClientKey],
     Exited "no TLS private key. Environment variable 'KES_CLIENT_KEY' is empty").
Proof.
  intros Hapi Hcert Hfull Hkey Hblank. unfold newClient. unfold_calls. run.
  rewrite Hapi. run. rewrite Hcert. run.
  apply String.eqb_neq in Hfull. rewrite Hfull. run.
  rewrite Hkey. run. rewrite Hblank. run. reflexivity.
Qed.

(** The run on the file-pair path, from the matched key block on. *)
Lemma newClient_file_pair certPath keyPath certPem keyPem privateKey :
  FilePair L w certPath keyPath certPem keyPem privateKey ->
  newClient L w insecureSkipVerify =
    after (filePairPrefix certPath keyPath)
      (keyPem' ← (if needsPassword L privateKey then unlock L w privateKey
                  else mret keyPem);
       r ← X509KeyPair L certPem keyPem';
       cert ← orFatalf r "failed to load TLS private key or certificate: ";
       connect w cert insecureSkipVerify).
Proof.
  intros [Hapi Hcert Hcfull Hkey Hkfull (raw & Hraw & Hkept) Hfile Hblock].
  apply String.eqb_neq in Hcfull, Hkfull.
  unfold newClient, filePairPrefix.
  unfold os_LookupEnv, os_ReadFile, when. run.
  rewrite Hapi. run. rewrite Hcert. run. rewrite Hcfull. run.
  rewrite Hkey. run. rewrite Hkfull. run.
  rewrite Hraw. run. rewrite Hkept. run. rewrite Hfile. run.
  rewrite Hblock. run. reflexivity.
Qed.

(** The four ways through the password prompt. *)
Lemma unlock_unreadable (privateKey : pem.Block) (err : error) :
  password w (os.Fd os.Stderr) = Err err ->
  unlock L w privateKey =
    ([prompt; EvReadPassword (os.Fd os.Stderr)],
     Exited ("failed to read private key password: " +:+ errors.Error err)).
Proof.
  intros Hpw. cbn in Hpw. unfold unlock, prompt. unfold_calls. run.
  rewrite Hpw. run. reflexivity.
Qed.

Lemma unlock_read (privateKey : pem.Block) (pw : list byte) :
  password w (os.Fd os.Stderr) = Ok pw ->
  unlock L w privateKey =
    after [prompt; EvReadPassword (os.Fd os.Stderr);
           EvWrite (os.Fd os.Stderr) newline; EvDecryptPEMBlock]
      match x509_DecryptPEMBlock L privateKey pw with
      | Ok decPrivateKey =>
          mret (pem_EncodeToMemory L
                  {| pem.Type_ := pem.Type_ privateKey;
                     pem.Headers := ∅;
                     pem.Bytes := decPrivateKey |})
      | Err err =>
          if errors.Is err x509_IncorrectPasswordError
          then cli.Fatalf "incorrect password"
          else cli.Fatalf ("failed to decrypt private key: " +:+ errors.Error err)
      end.
Proof.
  intros Hpw. cbn in Hpw. unfold unlock, prompt. unfold_calls. run.
  rewrite Hpw. run.
  destruct (x509_DecryptPEMBlock L privateKey pw) as [dec | err]; run;
    [reflexivity |].
  destruct (errors.Is err x509_IncorrectPasswordError); run; reflexivity.
Qed.

(** Every client that [newClient] returns comes from the last lines of one
    of the two paths, with the key pair that the path resolved. *)
Lemma newClient_Returned (c : kes.Client Certificate) :
  outcome (newClient L w insecureSkipVerify) = Returned c ->
  exists cert,
    c = kes.NewClientWithConfig
          (default DefaultServer (environ w !! EnvServer))
          (clientConfig cert insecureSkipVerify)
    /\ ((exists apiKey key,
           environ w !! EnvAPIKey = Some apiKey
           /\ kes_ParseAPIKey L apiKey = Ok key
           /\ kes_GenerateCertificate L key = Ok cert)
        \/ (exists certPem keyPem,
             environ w !! EnvAPIKey = None
             /\ tls_X509KeyPair L certPem keyPem = Ok cert)).
Proof.
  unfold newClient, unlock. unfold_calls. run.
  repeat (head_case; run; try discriminate).
  all: rewrite connect_eq; cbn; intros [= <-]; eexists;
    (split; [reflexivity |]); eauto 10.
Qed.

(** *** The claims about [newClient] *)

(** C1. When the API key is set together with the client certificate or the
    client key, whatever their values, [newClient] ends with the error
    "two conflicting environment variables set" which names the API key and
    a file variable that is set, and before that it has only looked at the
    environment: no file is read, no API key is parsed, no certificate is
    generated. *)
Theorem conflicting_sources_are_fatal (apiKey : string) :
  environ w !! EnvAPIKey = Some apiKey ->
  is_Some (environ w !! EnvClientCert) \/ is_Some (environ w !! EnvClientKey) ->
  (exists other,
      (other = EnvClientCert \/ other = EnvClientKey)
      /\ is_Some (environ w !! other)
      /\ outcome (newClient L w insecureSkipVerify) =
           Exited ("two conflicting environment variables set: unset either 'KES_API_KEY' or '"
                     +:+ other +:+ "'"))
  /\ Forall (fun e => exists key, e = EvLookupEnv key)
            (trace (newClient L w insecureSkipVerify)).
Proof.
  intros Hapi Hset. rewrite (newClient_api_key _ Hapi).
  destruct (environ w !! EnvClientCert) as [cert |] eqn:Hcert.
  - split.
    + exists EnvClientCert. rewrite Hcert. split; [now left |]. split; [eauto | reflexivity].
    + repeat constructor; eauto.
  - destruct Hset as [[? [=]] | [key Hkey]]. rewrite Hkey. split.
    + exists EnvClientKey. rewrite Hkey. split; [now right |]. split; [eauto | reflexivity].
    + repeat constructor; eauto.
Qed.

(** C9. On the API-key path (the API key set, the two file variables not),
    [newClient] reads no file and does not touch the terminal: its events
    are the look-ups of the environment, the parsing of the key and the
    derivation of the certificate, in that order. *)
Theorem api_key_path_leaves_files_and_terminal_alone (apiKey : string) :
  environ w !! EnvAPIKey = Some apiKey ->
  environ w !! EnvClientCert = None ->
  environ w !! EnvClientKey = None ->
  trace (newClient L w insecureSkipVerify)
    `prefix_of` [EvLookupEnv EnvAPIKey; EvLookupEnv EnvClientCert;
                 EvLookupEnv EnvClientKey; EvParseAPIKey apiKey;
                 EvGenerateCertificate; EvLookupEnv EnvServer]
  /\ Forall (fun e => isFileIO e = false /\ isTerminalIO e = false)
            (trace (newClient L w insecureSkipVerify)).
Proof.
  intros Hapi Hcert Hkey. rewrite (newClient_api_key _ Hapi), Hcert, Hkey.
  destruct (kes_ParseAPIKey L apiKey) as [key | err]; run.
  - destruct (kes_GenerateCertificate L key) as [cert | err]; run.
    + rewrite connect_eq. run. split; [reflexivity | repeat constructor].
    + split; [eexists; reflexivity | repeat constructor].
  - split; [eexists; reflexivity | repeat constructor].
Qed.

(** C6. In every successful resolution, on either path, the address of the
    client is the fixed local endpoint "https://127.0.0.1:7373" when the
    server variable is absent, and otherwise the supplied value as it is,
    the empty string included.  So the address is the default only through
    absence or through a supplied value that spells the default. *)
Theorem server_address_default_only_on_absence (c : kes.Client Certificate) :
  outcome (newClient L w insecureSkipVerify) = Returned c ->
  (environ w !! EnvServer = None -> kes.endpoint c = "https://127.0.0.1:7373")
  /\ (forall v, environ w !! EnvServer = Some v -> kes.endpoint c = v)
  /\ (environ w !! EnvServer = Some "" -> kes.endpoint c = "")
  /\ (kes.endpoint c = "https://127.0.0.1:7373" ->
      environ w !! EnvServer = None
      \/ environ w !! EnvServer = Some "https://127.0.0.1:7373").
Proof.
  intros Hret. destruct (newClient_Returned _ Hret) as (cert & -> & _). cbn.
  destruct (environ w !! EnvServer) as [v |]; cbn.
  - repeat split; try discriminate.
    + now intros ? [= ->].
    + now intros [= ->].
    + intros ->. now right.
  - repeat split; try discriminate. now left.
Qed.

(** C7. The TLS configuration of every client that [newClient] returns holds
    exactly one certificate, the key pair that the path resolved (derived
    from the API key, or built from the two files), and the
    skip-verification flag of the caller; every other field is zero, so
    that cipher suites, versions and trust roots are the defaults. *)
Theorem tls_config_has_one_pair_and_the_flag (c : kes.Client Certificate) :
  outcome (newClient L w insecureSkipVerify) = Returned c ->
  exists cert,
    tls.Certificates (kes.config c) = [cert]
    /\ ((exists apiKey key,
           environ w !! EnvAPIKey = Some apiKey
           /\ kes_ParseAPIKey L apiKey = Ok key
           /\ kes_GenerateCertificate L key = Ok cert)
        \/ (exists certPem keyPem,
             environ w !! EnvAPIKey = None
             /\ tls_X509KeyPair L certPem keyPem = Ok cert))
    /\ tls.InsecureSkipVerify (kes.config c) = insecureSkipVerify
    /\ tls.RootCAs (kes.config c) = tls.RootCAs (@tls.zero Certificate)
    /\ tls.NextProtos (kes.config c) = tls.NextProtos (@tls.zero Certificate)
    /\ tls.ServerName (kes.config c) = tls.ServerName (@tls.zero Certificate)
    /\ tls.ClientCAs (kes.config c) = tls.ClientCAs (@tls.zero Certificate)
    /\ tls.CipherSuites (kes.config c) = tls.CipherSuites (@tls.zero Certificate)
    /\ tls.MinVersion (kes.config c) = tls.MinVersion (@tls.zero Certificate)
    /\ tls.MaxVersion (kes.config c) = tls.MaxVersion (@tls.zero Certificate)
    /\ tls.CurvePreferences (kes.config c) = tls.CurvePreferences (@tls.zero Certificate).
Proof.
  intros Hret. destruct (newClient_Returned _ Hret) as (cert & -> & Hfrom).
  exists cert. cbn. repeat split; try reflexivity. exact Hfrom.
Qed.

(** C3, as the program has it.  Only the two file variables have the pair
    of errors, and on the file-pair path (no API key) they are checked in
    the order certificate, key: an absent certificate variable gives
    "... 'KES_CLIENT_CERT' is not set", an empty one "... 'KES_CLIENT_CERT'
    is empty"; with a certificate path that is not blank, an absent key
    variable gives "... 'KES_CLIENT_KEY' is not set" and an empty one
    "... 'KES_CLIENT_KEY' is empty".  The four messages differ. *)
Theorem file_variables_absent_or_empty :
  environ w !! EnvAPIKey = None ->
  (environ w !! EnvClientCert = None ->
   outcome (newClient L w insecureSkipVerify) =
     Exited "no TLS client certificate. Environment variable 'KES_CLIENT_CERT' is not set")
  /\ (environ w !! EnvClientCert = Some "" ->
      outcome (newClient L w insecureSkipVerify) =
        Exited "no TLS client certificate. Environment variable 'KES_CLIENT_CERT' is empty")
  /\ (forall certPath,
        environ w !! EnvClientCert = Some certPath ->
        strings_TrimSpace L certPath <> "" ->
        (environ w !! EnvClientKey = None ->
         outcome (newClient L w insecureSkipVerify) =
           Exited "no TLS private key. Environment variable 'KES_CLIENT_KEY' is not set")
        /\ (environ w !! EnvClientKey = Some "" ->
            outcome (newClient L w insecureSkipVerify) =
              Exited "no TLS private key. Environment variable 'KES_CLIENT_KEY' is empty"))
  /\ NoDup
       ["no TLS client certificate. Environment variable 'KES_CLIENT_CERT' is not set";
        "no TLS client certificate. Environment variable 'KES_CLIENT_CERT' is empty";
        "no TLS private key. Environment variable 'KES_CLIENT_KEY' is not set";
        "no TLS private key. Environment variable 'KES_CLIENT_KEY' is empty"].
Proof.
  intros Hapi. split; [| split; [| split]].
  - intros Hcert. now rewrite (newClient_cert_not_set Hapi Hcert).
  - intros Hcert. now rewrite (newClient_cert_blank _ Hapi Hcert eq_refl).
  - intros certPath Hcert Hfull. split; intros Hkey.
    + now rewrite (newClient_key_not_set _ Hapi Hcert Hfull Hkey).
    + now rewrite (newClient_key_blank _ _ Hapi Hcert Hfull Hkey eq_refl).
  - apply (bool_decide_unpack _). vm_compute. exact I.
Qed.

(** C10. A client-certificate or client-key path made of white space only
    counts as empty: [newClient] ends with the error "... is empty" for
    that variable and has read no file.  White space is judged by
    [strings.TrimSpace]: the value is all ASCII white space, or else the
    trimming leaves nothing of it. *)
Theorem blank_path_counts_as_empty (v : string) :
  allAsciiSpace v = true \/ strings_TrimSpace L v = "" ->
  environ w !! EnvAPIKey = None ->
  (environ w !! EnvClientCert = Some v ->
   outcome (newClient L w insecureSkipVerify) =
     Exited "no TLS client certificate. Environment variable 'KES_CLIENT_CERT' is empty"
   /\ Forall (fun e => isFileIO e = false)
             (trace (newClient L w insecureSkipVerify)))
  /\ (forall certPath,
        environ w !! EnvClientCert = Some certPath ->
        strings_TrimSpace L certPath <> "" ->
        environ w !! EnvClientKey = Some v ->
        outcome (newClient L w insecureSkipVerify) =
          Exited "no TLS private key. Environment variable 'KES_CLIENT_KEY' is empty"
        /\ Forall (fun e => isFileIO e = false)
                  (trace (newClient L w insecureSkipVerify))).
Proof.
  intros Hblank Hapi.
  assert (strings_TrimSpace L v = "") as Hv.
  { destruct Hblank as [Hascii | Htrim]; [| exact Htrim].
    now apply TrimSpace_allAsciiSpace. }
  split.
  - intros Hcert. rewrite (newClient_cert_blank _ Hapi Hcert Hv).
    split; [reflexivity | repeat constructor].
  - intros certPath Hcert Hfull Hkey.
    rewrite (newClient_key_blank _ _ Hapi Hcert Hfull Hkey Hv).
    split; [reflexivity | repeat constructor].
Qed.

(** C5. With an encrypted key block and the password read, a decryption
    that fails because the password is incorrect ends [newClient] with the
    bare message "incorrect password"; any other failure of the decryption
    ends it with "failed to decrypt private key: " followed by the text of
    the underlying error. *)
Theorem incorrect_password_is_told_apart
    certPath keyPath certPem keyPem privateKey (pw : list byte) (err : error) :
  FilePair L w certPath keyPath certPem keyPem privateKey ->
  needsPassword L privateKey = true ->
  password w (os.Fd os.Stderr) = Ok pw ->
  x509_DecryptPEMBlock L privateKey pw = Err err ->
  (errors.Is err x509_IncorrectPasswordError = true ->
   outcome (newClient L w insecureSkipVerify) = Exited "incorrect password")
  /\ (errors.Is err x509_IncorrectPasswordError = false ->
      outcome (newClient L w insecureSkipVerify) =
        Exited ("failed to decrypt private key: " +:+ errors.Error err)).
Proof.
  intros Hpath Hneeds Hpw Hdec.
  rewrite (newClient_file_pair _ _ _ _ _ Hpath), Hneeds, (unlock_read _ _ Hpw), Hdec.
  split; intros ->; run; reflexivity.
Qed.

(** C2, as the program has it.  [newClient] never asks whether standard
    error is a terminal.  On the file-pair path with an encrypted key block
    it writes the prompt and calls [term.ReadPassword] on the descriptor of
    standard error in every world; when that read gives an error, the run
    ends there with "failed to read private key password: " and the error,
    before any decryption. *)
Theorem prompt_does_not_ask_for_a_terminal
    certPath keyPath certPem keyPem privateKey :
  FilePair L w certPath keyPath certPem keyPem privateKey ->
  needsPassword L privateKey = true ->
  (exists rest,
      trace (newClient L w insecureSkipVerify) =
        filePairPrefix certPath keyPath
          ++ [prompt; EvReadPassword (os.Fd os.Stderr)] ++ rest)
  /\ Forall (fun e => isTerminalQuery e = false)
            (trace (newClient L w insecureSkipVerify))
  /\ (forall err,
        password w (os.Fd os.Stderr) = Err err ->
        newClient L w insecureSkipVerify =
          (filePairPrefix certPath keyPath
             ++ [prompt; EvReadPassword (os.Fd os.Stderr)],
           Exited ("failed to read private key password: " +:+ errors.Error err))).
Proof.
  intros Hpath Hneeds. rewrite (newClient_file_pair _ _ _ _ _ Hpath), Hneeds.
  destruct (password w (os.Fd os.Stderr)) as [pw | err] eqn:Hpw.
  - rewrite (unlock_read _ _ Hpw). unfold X509KeyPair, orFatalf.
    repeat split; [| | discriminate];
      repeat (case_match; run); rewrite ?connect_eq; run;
      first [eexists; reflexivity | repeat constructor].
  - rewrite (unlock_unreadable _ _ Hpw). run.
    repeat split.
    + exists []. reflexivity.
    + repeat constructor.
    + now intros ? [= ->].
Qed.


End Resolution.

(** *** The key scan *)

Lemma substring_whole (s : string) : substring 0 (String.length s) s = s.
Proof. induction s as [| c s IH]; cbn; [reflexivity | now rewrite IH]. Qed.

Lemma substring_after (front s : string) :
  substring (String.length front) (String.length s) (front +:+ s) = s.
Proof. induction front as [| c front IH]; cbn; [apply substring_whole | exact IH]. Qed.

Lemma length_append (front s : string) :
  String.length (front +:+ s)
  = (String.length front + String.length s)%nat.
Proof.
  induction front as [| c front IH]; cbn; [reflexivity |].
  rewrite <- IH. reflexivity.
Qed.

Lemma substring_split (n : nat) (s : string) :
  (n <= String.length s)%nat ->
  s = substring 0 n s +:+ substring n (String.length s - n) s.
Proof.
  revert s. induction n as [| n IH]; intros s Hn.
  - rewrite Nat.sub_0_r, substring_whole. now destruct s.
  - destruct s as [| c s]; cbn in *; [lia |].
    change (String c s
            = String c (substring 0 n s +:+ substring n (String.length s - n) s)).
    f_equal. apply IH. lia.
Qed.

(** [strings.HasSuffix] says that the string ends with the suffix. *)
Lemma HasSuffix_spec (s suffix : string) :
  strings.HasSuffix s suffix = true <-> exists front, s = front +:+ suffix.
Proof.
  unfold strings.HasSuffix. rewrite andb_true_iff, Nat.leb_le, String.eqb_eq.
  split.
  - intros [Hlen Hsub].
    exists (substring 0 (String.length s - String.length suffix) s).
    pose proof (substring_split (String.length s - String.length suffix) s
                  ltac:(lia)) as Hsplit.
    replace (String.length s - (String.length s - String.length suffix))%nat
      with (String.length suffix) in Hsplit by lia.
    now rewrite Hsub in Hsplit.
  - intros [front Hs]. subst s. rewrite !length_append. split; [lia |].
    replace (String.length front + String.length suffix - String.length suffix)%nat
      with (String.length front) by lia.
    apply substring_after.
Qed.

(** The test of the loop is the design's "exactly PRIVATE KEY or ends with
    the suffix PRIVATE KEY after a space". *)
Lemma isPrivateKeyType_wanted (ty : string) :
  isPrivateKeyType ty = true <-> wantedType ty.
Proof.
  unfold isPrivateKeyType, wantedType.
  now rewrite orb_true_iff, String.eqb_eq, HasSuffix_spec.
Qed.

Lemma isPrivateKeyType_unwanted (ty : string) :
  isPrivateKeyType ty = false <-> ~ wantedType ty.
Proof.
  rewrite <- isPrivateKeyType_wanted. now destruct (isPrivateKeyType ty).
Qed.

Lemma find_firstWanted (stream : list pem.Block) (b : pem.Block) :
  List.find (fun x => isPrivateKeyType (pem.Type_ x)) stream = Some b
  <-> firstWanted stream b.
Proof.
  unfold firstWanted. induction stream as [| x stream IH]; cbn.
  - split; [discriminate |]. intros (skipped & rest & Hnil & _).
    now destruct skipped.
  - destruct (isPrivateKeyType (pem.Type_ x)) eqn:Hx.
    + split.
      * intros [= ->]. exists [], stream.
        split; [reflexivity |]. split; [now apply isPrivateKeyType_wanted | constructor].
      * intros ([| y skipped] & rest & Heq & Hb & Hskipped).
        -- now injection Heq as ->.
        -- injection Heq as -> _. apply Forall_cons in Hskipped as [Hy _].
           now apply isPrivateKeyType_wanted in Hx.
    + rewrite IH. split.
      * intros (skipped & rest & -> & Hb & Hskipped).
        exists (x :: skipped), rest. split; [reflexivity |]. split; [exact Hb |].
        constructor; [now apply isPrivateKeyType_unwanted | exact Hskipped].
      * intros ([| y skipped] & rest & Heq & Hb & Hskipped).
        -- injection Heq as -> _. now apply isPrivateKeyType_unwanted in Hx.
        -- injection Heq as -> ->. apply Forall_cons in Hskipped as [_ Hskipped].
           eauto.
Qed.

Lemma find_noneWanted (stream : list pem.Block) :
  List.find (fun x => isPrivateKeyType (pem.Type_ x)) stream = None
  <-> noneWanted stream.
Proof.
  unfold noneWanted. induction stream as [| x stream IH]; cbn.
  - split; [constructor | reflexivity].
  - destruct (isPrivateKeyType (pem.Type_ x)) eqn:Hx.
    + split; [discriminate |]. intros [Hno _]%Forall_cons.
      now apply isPrivateKeyType_wanted in Hx.
    + rewrite IH. split.
      * intros Hrest. constructor; [now apply isPrivateKeyType_unwanted | exact Hrest].
      * now intros [_ Hrest]%Forall_cons.
Qed.

Section KeyScan.

Context {APIKey Certificate : Type}.
Variable L : @Library APIKey Certificate.

(** What [pem.Decode] promises: when it finds a block, the rest that it
    returns is shorter than its input. *)
Hypothesis Decode_consumes :
  forall data blk rest,
    pem_Decode L data = (Some blk, rest) -> (length rest < length data)%nat.

(** With that, the fuel beyond the length of the input is never used. *)
Lemma pemStream_upto_enough (n m : nat) (data : list byte) :
  (length data <= n)%nat -> (length data <= m)%nat ->
  pemStream_upto L n data = pemStream_upto L m data.
Proof.
  revert m data. induction n as [| n IH]; intros m data Hn Hm.
  - destruct data; [| cbn in Hn; lia]. now destruct m.
  - destruct data as [| b data]; [now destruct m |].
    destruct m as [| m]; [cbn in Hm; lia |]. cbn [pemStream_upto].
    destruct (pem_Decode L (b :: data)) as [[blk |] rest] eqn:Hdec;
      [| reflexivity].
    apply Decode_consumes in Hdec. f_equal. apply IH; cbn in *; lia.
Qed.

(** The stream is what decoding again and again yields. *)
Lemma pemStream_unfold (data : list byte) :
  pemStream L data =
    match data with
    | [] => []
    | _ :: _ =>
        match pem_Decode L data with
        | (Some blk, rest) => blk :: pemStream L rest
        | (None, _) => []
        end
    end.
Proof.
  unfold pemStream. destruct data as [| b data]; [reflexivity |].
  cbn [length pemStream_upto].
  destruct (pem_Decode L (b :: data)) as [[blk |] rest] eqn:Hdec;
    [| reflexivity].
  apply Decode_consumes in Hdec. f_equal.
  apply pemStream_upto_enough; cbn in *; lia.
Qed.

(** The loop returns, and returns the first wanted block of the stream. *)
Lemma decodePrivateKey_loop_find (n : nat) (data : list byte) :
  (length data <= n)%nat ->
  decodePrivateKey_loop L n data =
    Some match List.find (fun x => isPrivateKeyType (pem.Type_ x))
                 (pemStream_upto L n data) with
         | Some b => Ok b
         | None => Err ErrNoPrivateKey
         end.
Proof.
  revert data. induction n as [| n IH]; intros data Hn.
  - destruct data; [reflexivity | cbn in Hn; lia].
  - destruct data as [| b data]; [reflexivity |].
    cbn [decodePrivateKey_loop pemStream_upto].
    destruct (pem_Decode L (b :: data)) as [[blk |] rest] eqn:Hdec;
      [| reflexivity].
    cbn [List.find]. destruct (isPrivateKeyType (pem.Type_ blk)); [reflexivity |].
    apply IH. apply Decode_consumes in Hdec. cbn in *; lia.
Qed.

(** C4. For every buffer [decodePrivateKey] returns, and it returns the
    first block of the decoded stream, from left to right, whose type is
    exactly "PRIVATE KEY" or ends with " PRIVATE KEY"; the blocks of other
    types before it are skipped and not reported.  When the stream has no
    such block, which includes a buffer with no PEM block at all, it
    returns the error "no PEM-encoded private key found". *)
Theorem decodePrivateKey_first_private_key (data : list byte) :
  (exists r, decodePrivateKey L data = Some r)
  /\ (forall b,
        decodePrivateKey L data = Some (Ok b)
        <-> firstWanted (pemStream L data) b)
  /\ (forall err,
        decodePrivateKey L data = Some (Err err)
        <-> err = ErrNoPrivateKey /\ noneWanted (pemStream L data))
  /\ (pemStream L data = [] -> decodePrivateKey L data = Some (Err ErrNoPrivateKey))
  /\ errors.Error ErrNoPrivateKey = "no PEM-encoded private key found".
Proof.
  unfold decodePrivateKey.
  rewrite (decodePrivateKey_loop_find (length data) data (Nat.le_refl _)).
  fold (pemStream L data).
  split; [eauto |]. split; [| split; [| split; [| reflexivity]]].
  - intros b. rewrite <- find_firstWanted.
    destruct (List.find _ (pemStream L data)); split; congruence.
  - intros err. rewrite <- find_noneWanted.
    destruct (List.find _ (pemStream L data)) as [b |].
    + split; [discriminate | intros [_ [=]]].
    + split; [now intros [= <-] | now intros [-> _]].
  - now intros ->.
Qed.

End KeyScan.

(** *** The program on the test doubles *)

Lemma Double_Decode_consumes (data : list byte) (blk : pem.Block) (rest : list byte) :
  pem_Decode Double.lib data = (Some blk, rest) ->
  (length rest < length data)%nat.
Proof.
  cbn. unfold Double.Decode. destruct data as [| b data]; [discriminate |].
  destruct (Double.blockOf b); [| discriminate].
  intros [= _ <-]. cbn. lia.
Qed.

Lemma Double_locked_path (tty : bool) (pw : result (list byte)) :
  FilePair Double.lib
    (Double.world (Double.files "/etc/kes/locked.key") tty pw)
    "/etc/kes/client.crt" "/etc/kes/locked.key"
    (list_byte_of_string "CC") (list_byte_of_string "CE")
    (Double.block "RSA PRIVATE KEY" Double.dekInfo "E"%byte).
Proof.
  constructor; try (vm_compute; reflexivity); try (vm_compute; discriminate).
  eexists. split; vm_compute; reflexivity.
Qed.

(** *** Runs on the test doubles *)

(** C1 on a world with the API key and an empty client-key variable. *)
Lemma conflicting_sources_witness :
  (exists other,
      (other = EnvClientCert \/ other = EnvClientKey)
      /\ is_Some (environ Double.withConflict !! other)
      /\ outcome (newClient Double.lib Double.withConflict false) =
           Exited ("two conflicting environment variables set: unset either 'KES_API_KEY' or '"
                     +:+ other +:+ "'"))
  /\ Forall (fun e => exists key, e = EvLookupEnv key)
            (trace (newClient Double.lib Double.withConflict false)).
Proof.
  apply (conflicting_sources_are_fatal Double.lib Double.withConflict false
           Double.apiKey).
  - vm_compute. reflexivity.
  - right. exists "". vm_compute. reflexivity.
Defined.

(** C9 on a world with the API key alone. *)
Lemma api_key_path_witness :
  trace (newClient Double.lib Double.withAPIKey true)
    `prefix_of` [EvLookupEnv EnvAPIKey; EvLookupEnv EnvClientCert;
                 EvLookupEnv EnvClientKey; EvParseAPIKey Double.apiKey;
                 EvGenerateCertificate; EvLookupEnv EnvServer]
  /\ Forall (fun e => isFileIO e = false /\ isTerminalIO e = false)
            (trace (newClient Double.lib Double.withAPIKey true)).
Proof.
  apply (api_key_path_leaves_files_and_terminal_alone Double.lib
           Double.withAPIKey true Double.apiKey);
    vm_compute; reflexivity.
Defined.

(** C6 on a world where the server variable is set to the empty string. *)
Lemma server_address_witness :
  kes.endpoint
    (kes.NewClientWithConfig ""
       (clientConfig ("derived from " +:+ Double.apiKey) false)) = "".
Proof.
  refine (proj1 (proj2 (proj2
            (server_address_default_only_on_absence Double.lib
               Double.withAPIKeyAndEmptyServer false _ _))) _);
    vm_compute; reflexivity.
Defined.

(** C7 on the file-pair path with a plain key. *)
Lemma tls_config_witness :
  exists cert,
    tls.Certificates
      (kes.config (kes.NewClientWithConfig DefaultServer
                     (clientConfig "CC+CR" true))) = [cert]
    /\ ((exists apiKey key,
           environ Double.withFiles !! EnvAPIKey = Some apiKey
           /\ kes_ParseAPIKey Double.lib apiKey = Ok key
           /\ kes_GenerateCertificate Double.lib key = Ok cert)
        \/ (exists certPem keyPem,
             environ Double.withFiles !! EnvAPIKey = None
             /\ tls_X509KeyPair Double.lib certPem keyPem = Ok cert))
    /\ tls.InsecureSkipVerify
         (kes.config (kes.NewClientWithConfig DefaultServer
                        (clientConfig "CC+CR" true))) = true
    /\ tls.RootCAs
         (kes.config (kes.NewClientWithConfig DefaultServer
                        (clientConfig "CC+CR" true))) = tls.RootCAs (@tls.zero string)
    /\ tls.NextProtos
         (kes.config (kes.NewClientWithConfig DefaultServer
                        (clientConfig "CC+CR" true))) = tls.NextProtos (@tls.zero string)
    /\ tls.ServerName
         (kes.config (kes.NewClientWithConfig DefaultServer
                        (clientConfig "CC+CR" true))) = tls.ServerName (@tls.zero string)
    /\ tls.ClientCAs
         (kes.config (kes.NewClientWithConfig DefaultServer
                        (clientConfig "CC+CR" true))) = tls.ClientCAs (@tls.zero string)
    /\ tls.CipherSuites
         (kes.config (kes.NewClientWithConfig DefaultServer
                        (clientConfig "CC+CR" true))) = tls.CipherSuites (@tls.zero string)
    /\ tls.MinVersion
         (kes.config (kes.NewClientWithConfig DefaultServer
                        (clientConfig "CC+CR" true))) = tls.MinVersion (@tls.zero string)
    /\ tls.MaxVersion
         (kes.config (kes.NewClientWithConfig DefaultServer
                        (clientConfig "CC+CR" true))) = tls.MaxVersion (@tls.zero string)
    /\ tls.CurvePreferences
         (kes.config (kes.NewClientWithConfig DefaultServer
                        (clientConfig "CC+CR" true)))
       = tls.CurvePreferences (@tls.zero string).
Proof.
  apply (tls_config_has_one_pair_and_the_flag Double.lib Double.withFiles true).
  vm_compute. reflexivity.
Defined.

(** C3 on a world with no variable at all. *)
Lemma file_variables_witness :
  environ Double.withNothing !! EnvAPIKey = None
  /\ environ Double.withNothing !! EnvClientCert = None
  /\ outcome (newClient Double.lib Double.withNothing false) =
       Exited "no TLS client certificate. Environment variable 'KES_CLIENT_CERT' is not set".
Proof.
  assert (environ Double.withNothing !! EnvAPIKey = None) as Hapi
    by (vm_compute; reflexivity).
  assert (environ Double.withNothing !! EnvClientCert = None) as Hcert
    by (vm_compute; reflexivity).
  split; [exact Hapi |]. split; [exact Hcert |].
  exact (proj1 (file_variables_absent_or_empty Double.lib Double.withNothing
                  false Hapi) Hcert).
Defined.

(** C10 on a world whose key path is a tab and a space. *)
Lemma blank_path_witness :
  allAsciiSpace (String (ascii_of_nat 9) " ") = true
  /\ outcome (newClient Double.lib Double.withBlankKey false) =
       Exited "no TLS private key. Environment variable 'KES_CLIENT_KEY' is empty"
  /\ Forall (fun e => isFileIO e = false)
            (trace (newClient Double.lib Double.withBlankKey false)).
Proof.
  split; [vm_compute; reflexivity |].
  refine (proj2 (blank_path_counts_as_empty Double.lib Double.withBlankKey
                   false (String (ascii_of_nat 9) " ") (or_introl _) _)
            "/etc/kes/client.crt" _ _ _);
    try (vm_compute; reflexivity).
  vm_compute. discriminate.
Defined.

(** C5 at a terminal where the wrong password is typed. *)
Lemma incorrect_password_witness :
  errors.Is (errors.New 1 "x509: decryption password incorrect")
            x509_IncorrectPasswordError = true
  /\ outcome (newClient Double.lib (Double.lockedAtTerminal []) false) =
       Exited "incorrect password".
Proof.
  split; [vm_compute; reflexivity |].
  refine (proj1 (incorrect_password_is_told_apart Double.lib
                   (Double.lockedAtTerminal []) false _ _ _ _ _ []
                   (errors.New 1 "x509: decryption password incorrect")
                   (Double_locked_path true (Ok [])) _ _ _) _);
    vm_compute; reflexivity.
Defined.

(** C2 on a world without a terminal, where the password read fails. *)
Lemma prompt_witness :
  terminal Double.lockedNoTerminal (os.Fd os.Stderr) = false
  /\ newClient Double.lib Double.lockedNoTerminal false =
       (filePairPrefix "/etc/kes/client.crt" "/etc/kes/locked.key"
          ++ [prompt; EvReadPassword (os.Fd os.Stderr)],
        Exited ("failed to read private key password: "
                  +:+ errors.Error Double.ENOTTY)).
Proof.
  split; [vm_compute; reflexivity |].
  refine (proj2 (proj2 (prompt_does_not_ask_for_a_terminal Double.lib
                          Double.lockedNoTerminal false _ _ _ _ _
                          (Double_locked_path false (Err Double.ENOTTY)) _))
            Double.ENOTTY _);
    vm_compute; reflexivity.
Defined.



(** C4 on the key file with a certificate and then an RSA key. *)
Lemma decodePrivateKey_witness :
  firstWanted (pemStream Double.lib (list_byte_of_string "CR"))
              (Double.block "RSA PRIVATE KEY" ∅ "R"%byte)
  /\ decodePrivateKey Double.lib (list_byte_of_string "CR") =
       Some (Ok (Double.block "RSA PRIVATE KEY" ∅ "R"%byte)).
Proof.
  assert (firstWanted (pemStream Double.lib (list_byte_of_string "CR"))
            (Double.block "RSA PRIVATE KEY" ∅ "R"%byte)) as Hfirst.
  { exists [Double.block "CERTIFICATE" ∅ "C"%byte], [].
    split; [vm_compute; reflexivity |]. split.
    - right. exists "RSA". reflexivity.
    - repeat constructor. apply isPrivateKeyType_unwanted.
      vm_compute. reflexivity. }
  split; [exact Hfirst |].
  exact (proj2 (proj1 (proj2
           (decodePrivateKey_first_private_key Double.lib
              Double_Decode_consumes (list_byte_of_string "CR"))) _) Hfirst).
Defined.

(** *** Where the design and the program part *)

(** Against C2 as the design words it: standard error is not a terminal and
    the key is encrypted, and still the prompt is written and the password
    read is attempted. *)
Lemma prompt_attempted_without_terminal :
  terminal Double.lockedNoTerminal (os.Fd os.Stderr) = false
  /\ needsPassword Double.lib
       (Double.block "RSA PRIVATE KEY" Double.dekInfo "E"%byte) = true
  /\ newClient Double.lib Double.lockedNoTerminal false =
       ([EvLookupEnv "KES_API_KEY"; EvLookupEnv "KES_CLIENT_CERT";
         EvLookupEnv "KES_CLIENT_KEY"; EvReadFile "/etc/kes/client.crt";
         EvReadFile "/etc/kes/locked.key";
         EvWrite 2 "Enter password for private key: "; EvReadPassword 2],
        Exited "failed to read private key password: inappropriate ioctl for device").
Proof. repeat split; vm_compute; reflexivity. Qed.

(** Against C3 as the design words it: with the server variable absent, or
    present and empty, and with the API key absent, the run succeeds and no
    "not set" or "is empty" error names those variables. *)
Lemma absent_server_or_api_key_is_no_error :
  (environ Double.withAPIKey !! EnvServer = None
   /\ outcome (newClient Double.lib Double.withAPIKey false) =
        Returned (kes.NewClientWithConfig "https://127.0.0.1:7373"
                    (clientConfig "derived from kes:v1:AAEC" false)))
  /\ (environ Double.withAPIKeyAndEmptyServer !! EnvServer = Some ""
      /\ outcome (newClient Double.lib Double.withAPIKeyAndEmptyServer false) =
           Returned (kes.NewClientWithConfig ""
                       (clientConfig "derived from kes:v1:AAEC" false)))
  /\ (environ Double.withFiles !! EnvAPIKey = None
      /\ outcome (newClient Double.lib Double.withFiles false) =
           Returned (kes.NewClientWithConfig "https://127.0.0.1:7373"
                       (clientConfig "CC+CR" false))).
Proof. repeat split; vm_compute; reflexivity. Qed.

(** ** Further properties of the program *)

(** *** Blank and not blank *)

Lemma dropRightAsciiSpace_allASCII (s : string) :
  allASCII s = true -> allASCII (strings.dropRightAsciiSpace s) = true.
Proof.
  induction s as [| c s IH]; [reflexivity |].
  cbn [allASCII strings.dropRightAsciiSpace]. rewrite andb_true_iff.
  intros [Hc Hs]. specialize (IH Hs).
  destruct (strings.dropRightAsciiSpace s) as [| c' r].
  - destruct (strings.asciiSpace c); [reflexivity |].
    cbn [allASCII]. now rewrite Hc.
  - cbn [allASCII] in *. now rewrite Hc, IH.
Qed.

Lemma lastByte_allASCII (s : string) (c : ascii) :
  allASCII s = true -> strings.lastByte s = Some c -> strings.isASCII c = true.
Proof.
  induction s as [| c0 s IH]; [discriminate |].
  cbn [allASCII strings.lastByte]. rewrite andb_true_iff. intros [Hc0 Hs].
  destruct s as [| c1 s]; [now intros [= <-] | now apply IH].
Qed.

(** An ASCII string that is not all white space is not trimmed to nothing. *)
Lemma TrimSpace_ascii_not_blank (f g : string -> string) (s : string) :
  allASCII s = true -> allAsciiSpace s = false ->
  strings.TrimSpace f g s <> "".
Proof.
  induction s as [| c s IH]; [discriminate |].
  cbn [allASCII allAsciiSpace strings.TrimSpace].
  rewrite andb_true_iff. intros [Hc Hs] Hblank. rewrite Hc. cbn [negb].
  destruct (strings.asciiSpace c) eqn:Hspace; [now apply IH |].
  unfold strings.trimRight.
  pose proof (dropRightAsciiSpace_allASCII (String c s)) as Hkept.
  cbn [allASCII] in Hkept. rewrite Hc, Hs in Hkept. specialize (Hkept eq_refl).
  assert (strings.dropRightAsciiSpace (String c s) <> "") as Hne.
  { cbn [strings.dropRightAsciiSpace]. rewrite Hspace.
    now destruct (strings.dropRightAsciiSpace s). }
  destruct (strings.lastByte (strings.dropRightAsciiSpace (String c s)))
    as [c' |] eqn:Hlast; [| exact Hne].
  now rewrite (lastByte_allASCII _ _ Hkept Hlast).
Qed.

Section Paths.

Context {APIKey Certificate : Type}.
Variable L : @Library APIKey Certificate.
Variable w : World.
Variable insecureSkipVerify : bool.

(** *** Failures on the API-key path *)

(** X1. On the API-key path a key that does not parse ends the run with
    "invalid API key: " and the parser's error, before any certificate is
    derived; a derivation that fails ends it with "failed to generate
    client certificate from API key: " and the error.  In both cases the
    server variable is never looked at. *)
Theorem api_key_failures (apiKey : string) :
  environ w !! EnvAPIKey = Some apiKey ->
  environ w !! EnvClientCert = None ->
  environ w !! EnvClientKey = None ->
  (forall err,
      kes_ParseAPIKey L apiKey = Err err ->
      newClient L w insecureSkipVerify =
        ([EvLookupEnv EnvAPIKey; EvLookupEnv EnvClientCert;
          EvLookupEnv EnvClientKey; EvParseAPIKey apiKey],
         Exited ("invalid API key: " +:+ errors.Error err)))
  /\ (forall key err,
        kes_ParseAPIKey L apiKey = Ok key ->
        kes_GenerateCertificate L key = Err err ->
        newClient L w insecureSkipVerify =
          ([EvLookupEnv EnvAPIKey; EvLookupEnv EnvClientCert;
            EvLookupEnv EnvClientKey; EvParseAPIKey apiKey;
            EvGenerateCertificate],
           Exited ("failed to generate client certificate from API key: "
                     +:+ errors.Error err))).
Proof.
  intros Hapi Hcert Hkey. rewrite (newClient_api_key _ _ _ _ Hapi), Hcert, Hkey.
  split.
  - intros err ->. run. reflexivity.
  - intros key err -> ->. run. reflexivity.
Qed.

(** *** Failures on the file-pair path *)


(** X3. With the certificate loaded, a key file that cannot be read ends the
    run with "failed to load TLS private key: " and the error; nothing is
    written and no password is asked for. *)
Theorem key_file_unreadable (certPath keyPath : string) (raw certPem : list byte)
    (err : error) :
  environ w !! EnvAPIKey = None ->
  environ w !! EnvClientCert = Some certPath ->
  strings_TrimSpace L certPath <> "" ->
  environ w !! EnvClientKey = Some keyPath ->
  strings_TrimSpace L keyPath <> "" ->
  files w certPath = Ok raw ->
  https_FilterPEM L raw (fun b => String.eqb (pem.Type_ b) "CERTIFICATE")
  = Ok certPem ->
  files w keyPath = Err err ->
  newClient L w insecureSkipVerify =
    (filePairPrefix certPath keyPath,
     Exited ("failed to load TLS private key: " +:+ errors.Error err)).
Proof.
  intros Hapi Hcert Hcfull Hkey Hkfull Hfile Hkept Hkeyfile.
  apply String.eqb_neq in Hcfull, Hkfull.
  unfold newClient, filePairPrefix. unfold os_LookupEnv, os_ReadFile, when.
  run. rewrite Hapi. run. rewrite Hcert. run. rewrite Hcfull. run.
  rewrite Hkey. run. rewrite Hkfull. run. rewrite Hfile. run.
  rewrite Hkept. run. rewrite Hkeyfile. run. reflexivity.
Qed.

(** X4. With both files read, a key file whose decoded stream holds no block
    of a private-key type ends the run with "failed to read TLS private
    key: no PEM-encoded private key found"; the password prompt is not
    entered and no key pair is built. *)
Theorem key_file_without_private_key (certPath keyPath : string)
    (raw certPem keyPem : list byte) :
  (forall data blk rest,
      pem_Decode L data = (Some blk, rest) -> (length rest < length data)%nat) ->
  environ w !! EnvAPIKey = None ->
  environ w !! EnvClientCert = Some certPath ->
  strings_TrimSpace L certPath <> "" ->
  environ w !! EnvClientKey = Some keyPath ->
  strings_TrimSpace L keyPath <> "" ->
  files w certPath = Ok raw ->
  https_FilterPEM L raw (fun b => String.eqb (pem.Type_ b) "CERTIFICATE")
  = Ok certPem ->
  files w keyPath = Ok keyPem ->
  noneWanted (pemStream L keyPem) ->
  newClient L w insecureSkipVerify =
    (filePairPrefix certPath keyPath,
     Exited "failed to read TLS private key: no PEM-encoded private key found").
Proof.
  intros Hdec Hapi Hcert Hcfull Hkey Hkfull Hfile Hkept Hkeyfile Hnone.
  apply String.eqb_neq in Hcfull, Hkfull.
  assert (decodePrivateKey L keyPem = Some (Err ErrNoPrivateKey)) as Hscan.
  { unfold decodePrivateKey.
    rewrite (decodePrivateKey_loop_find L Hdec _ _ (Nat.le_refl _)).
    fold (pemStream L keyPem).
    apply find_noneWanted in Hnone. now rewrite Hnone. }
  unfold newClient, filePairPrefix. unfold os_LookupEnv, os_ReadFile, when.
  run. rewrite Hapi. run. rewrite Hcert. run. rewrite Hcfull. run.
  rewrite Hkey. run. rewrite Hkfull. run. rewrite Hfile. run.
  rewrite Hkept. run. rewrite Hkeyfile. run. rewrite Hscan. run. reflexivity.
Qed.

(** *** The key that reaches the key pair *)

(** X5. When the matched key block has no headers, or is not an encrypted PEM
    block, no prompt is written and no password is read, and the key pair
    is built from the kept certificate blocks and the whole key file as it
    was read (not the matched block alone); a failure gives "failed to load
    TLS private key or certificate: " and the error. *)
Theorem plain_key_goes_unchanged certPath keyPath certPem keyPem privateKey :
  FilePair L w certPath keyPath certPem keyPem privateKey ->
  pem.Headers privateKey = ∅ \/ x509_IsEncryptedPEMBlock L privateKey = false ->
  newClient L w insecureSkipVerify =
    match tls_X509KeyPair L certPem keyPem with
    | Ok cert =>
        (filePairPrefix certPath keyPath
           ++ [EvX509KeyPair; EvLookupEnv EnvServer],
         Returned (kes.NewClientWithConfig
                     (default DefaultServer (environ w !! EnvServer))
                     (clientConfig cert insecureSkipVerify)))
    | Err err =>
        (filePairPrefix certPath keyPath ++ [EvX509KeyPair],
         Exited ("failed to load TLS private key or certificate: "
                   +:+ errors.Error err))
    end.
Proof.
  intros Hpath Hplain.
  assert (needsPassword L privateKey = false) as Hneeds.
  { unfold needsPassword. destruct Hplain as [-> | ->].
    - reflexivity.
    - apply andb_false_r. }
  rewrite (newClient_file_pair _ _ _ _ _ _ _ _ Hpath), Hneeds.
  unfold X509KeyPair, orFatalf, filePairPrefix. run.
  destruct (tls_X509KeyPair L certPem keyPem) as [cert | err]; run.
  - rewrite connect_eq. run. reflexivity.
  - reflexivity.
Qed.

(** X6. When the key block is encrypted, the password is read and the
    decryption succeeds, the key pair is built from the kept certificate
    blocks and a fresh PEM encoding of a block with the type of the matched
    block, no headers and the decrypted bytes: the other blocks of the key
    file do not reach [tls.X509KeyPair]. *)
Theorem unlocked_key_is_reencoded
    certPath keyPath certPem keyPem privateKey (pw decPrivateKey : list byte) :
  FilePair L w certPath keyPath certPem keyPem privateKey ->
  needsPassword L privateKey = true ->
  password w (os.Fd os.Stderr) = Ok pw ->
  x509_DecryptPEMBlock L privateKey pw = Ok decPrivateKey ->
  outcome (newClient L w insecureSkipVerify) =
    match tls_X509KeyPair L certPem
            (pem_EncodeToMemory L
               {| pem.Type_ := pem.Type_ privateKey;
                  pem.Headers := ∅;
                  pem.Bytes := decPrivateKey |}) with
    | Ok cert =>
        Returned (kes.NewClientWithConfig
                    (default DefaultServer (environ w !! EnvServer))
                    (clientConfig cert insecureSkipVerify))
    | Err err =>
        Exited ("failed to load TLS private key or certificate: "
                  +:+ errors.Error err)
    end.
Proof.
  intros Hpath Hneeds Hpw Hdec.
  rewrite (newClient_file_pair _ _ _ _ _ _ _ _ Hpath), Hneeds,
    (unlock_read _ _ _ _ Hpw), Hdec.
  unfold X509KeyPair, orFatalf. run.
  destruct (tls_X509KeyPair L certPem _) as [cert | err]; run.
  - rewrite connect_eq. reflexivity.
  - reflexivity.
Qed.

(** X7. The file names that are read are the values of the two variables as
    they are: white space is trimmed for the emptiness test only.  For ASCII
    values with a byte that is not white space, the certificate file is read
    under the untrimmed name, and the only other name that a run may read
    is the untrimmed value of the key variable. *)
Theorem paths_are_read_untrimmed (certPath keyPath : string) :
  environ w !! EnvAPIKey = None ->
  environ w !! EnvClientCert = Some certPath ->
  allASCII certPath = true -> allAsciiSpace certPath = false ->
  environ w !! EnvClientKey = Some keyPath ->
  allASCII keyPath = true -> allAsciiSpace keyPath = false ->
  exists rest,
    trace (newClient L w insecureSkipVerify) =
      [EvLookupEnv EnvAPIKey; EvLookupEnv EnvClientCert;
       EvLookupEnv EnvClientKey; EvReadFile certPath] ++ rest
    /\ Forall (fun e => forall name, e = EvReadFile name -> name = keyPath)
              rest.
Proof.
  intros Hapi Hcert Hca Hcb Hkey Hka Hkb.
  pose proof (TrimSpace_ascii_not_blank (TrimFunc_IsSpace L)
                (TrimRightFunc_IsSpace L) _ Hca Hcb) as Hcfull.
  pose proof (TrimSpace_ascii_not_blank (TrimFunc_IsSpace L)
                (TrimRightFunc_IsSpace L) _ Hka Hkb) as Hkfull.
  fold (strings_TrimSpace L certPath) in Hcfull.
  fold (strings_TrimSpace L keyPath) in Hkfull.
  apply String.eqb_neq in Hcfull, Hkfull.
  unfold newClient, unlock. unfold_calls.
  run. rewrite Hapi. run. rewrite Hcert. run. rewrite Hcfull. run.
  rewrite Hkey. run. rewrite Hkfull. run.
  repeat (head_case; run).
  all: rewrite ?connect_eq; run; eexists; (split; [reflexivity |]);
    repeat (constructor; [now intros ? [= <-] || now intros ? [=] |]);
    constructor.
Qed.

(** *** What no run does *)

(** X8. In every world, whatever the path and the outcome, [newClient] never
    asks whether a descriptor is a terminal, its own writes are the prompt
    and the bare newline on standard error, the password is read on the
    descriptor of standard error only, and none of this happens unless the
    API key is absent. *)
Theorem own_events_of_every_run :
  Forall (fun e => ownEvent e = true)
         (trace (newClient L w insecureSkipVerify))
  /\ (Exists (fun e => asksPassword e = true)
             (trace (newClient L w insecureSkipVerify)) ->
      environ w !! EnvAPIKey = None).
Proof.
  split.
  - unfold newClient, unlock. unfold_calls. run.
    repeat (head_case; run).
    all: rewrite ?connect_eq; run; repeat constructor.
  - destruct (environ w !! EnvAPIKey) as [apiKey |] eqn:Hapi; [| reflexivity].
    rewrite (newClient_api_key _ _ _ _ Hapi).
    destruct (environ w !! EnvClientCert), (environ w !! EnvClientKey),
      (kes_ParseAPIKey L apiKey) as [key | err]; run;
      try destruct (kes_GenerateCertificate L key); run;
      rewrite ?connect_eq; run;
      intros Hex; repeat (apply Exists_cons in Hex as [Hex | Hex];
                          [discriminate |]); now apply Exists_nil in Hex.
Qed.

(** X9. The skip-verification flag has no part in the resolution: with either
    value the run leaves the same events and ends the same way, and a
    returned client differs in that flag of its configuration only. *)
Theorem flag_changes_the_flag_only (other : bool) :
  newClient L w other =
    (trace (newClient L w insecureSkipVerify),
     mapOutcome (withFlag other) (outcome (newClient L w insecureSkipVerify))).
Proof.
  unfold newClient, unlock. unfold_calls. run.
  repeat (head_case; run).
  all: rewrite ?connect_eq; run; reflexivity.
Qed.

(** *** The enclave *)

(** X10. [newEnclave] resolves the client first: when [newClient] ends the
    process, [newEnclave] ends the same way after the same events, whatever
    the name, and the enclave variable is not looked at. *)
Theorem newEnclave_fails_as_newClient (name message : string) :
  outcome (newClient L w insecureSkipVerify) = Exited message ->
  newEnclave L w name insecureSkipVerify =
    (trace (newClient L w insecureSkipVerify), Exited message).
Proof.
  unfold newEnclave. destruct (newClient L w insecureSkipVerify) as [t o].
  cbn. intros ->. reflexivity.
Qed.

(** X11. When the client is resolved, a name that is not empty is used as it
    is and the environment is not asked; for the empty name the enclave is
    the value of KES_ENCLAVE, and the empty name again when that variable
    is not set. *)
Theorem newEnclave_name (name : string) (c : kes.Client Certificate) :
  outcome (newClient L w insecureSkipVerify) = Returned c ->
  (name <> "" ->
   newEnclave L w name insecureSkipVerify =
     (trace (newClient L w insecureSkipVerify),
      Returned (kes.Client_Enclave c name)))
  /\ (name = "" ->
      newEnclave L w name insecureSkipVerify =
        (trace (newClient L w insecureSkipVerify)
           ++ [EvLookupEnv "KES_ENCLAVE"],
         Returned (kes.Client_Enclave c
                     (default "" (environ w !! "KES_ENCLAVE"))))).
Proof.
  unfold newEnclave, os_Getenv.
  destruct (newClient L w insecureSkipVerify) as [t o]. cbn. intros ->.
  split.
  - intros Hname. apply String.eqb_neq in Hname. rewrite Hname. run.
    rewrite ?app_nil_r. reflexivity.
  - intros ->. run. reflexivity.
Qed.

End Paths.

(** *** Skipping in the key scan *)

Section Skip.

Context {APIKey Certificate : Type}.
Variable L : @Library APIKey Certificate.

Hypothesis Decode_consumes :
  forall data blk rest,
    pem_Decode L data = (Some blk, rest) -> (length rest < length data)%nat.

Lemma decodePrivateKey_find (data : list byte) :
  decodePrivateKey L data =
    Some match List.find (fun x => isPrivateKeyType (pem.Type_ x))
                 (pemStream L data) with
         | Some b => Ok b
         | None => Err ErrNoPrivateKey
         end.
Proof.
  unfold decodePrivateKey.
  now rewrite (decodePrivateKey_loop_find L Decode_consumes _ _ (Nat.le_refl _)).
Qed.

(** X12. A decodable block of another type in front of a buffer does not
    change what [decodePrivateKey] finds: the scan of the whole is the scan
    of the rest. *)
Theorem decodePrivateKey_skips_other_blocks
    (data rest : list byte) (blk : pem.Block) :
  pem_Decode L data = (Some blk, rest) ->
  data <> [] ->
  ~ wantedType (pem.Type_ blk) ->
  decodePrivateKey L data = decodePrivateKey L rest.
Proof.
  intros Hdec Hdata Hother. rewrite !decodePrivateKey_find.
  rewrite (pemStream_unfold L Decode_consumes data).
  destruct data as [| b data]; [contradiction |]. rewrite Hdec.
  cbn [List.find]. apply isPrivateKeyType_unwanted in Hother.
  now rewrite Hother.
Qed.

End Skip.

(** *** Further runs on the test doubles *)

Lemma Double_plain_path :
  FilePair Double.lib Double.withFiles
    "/etc/kes/client.crt" "/etc/kes/client.key"
    (list_byte_of_string "CC") (list_byte_of_string "CR")
    (Double.block "RSA PRIVATE KEY" ∅ "R"%byte).
Proof.
  constructor; try (vm_compute; reflexivity); try (vm_compute; discriminate).
  eexists. split; vm_compute; reflexivity.
Qed.

(** X1 with an API key that lacks the prefix. *)
Lemma api_key_failures_witness :
  newClient Double.lib Double.withBadAPIKey false =
    ([EvLookupEnv EnvAPIKey; EvLookupEnv EnvClientCert;
      EvLookupEnv EnvClientKey; EvParseAPIKey "secret"],
     Exited "invalid API key: kes: invalid API key: missing API key prefix").
Proof.
  refine (proj1 (api_key_failures Double.lib Double.withBadAPIKey false
                   "secret" _ _ _)
            (errors.New 5 "kes: invalid API key: missing API key prefix") _);
    vm_compute; reflexivity.
Defined.


(** X3 with a key file that does not exist. *)
Lemma key_file_unreadable_witness :
  newClient Double.lib Double.withMissingKey false =
    (filePairPrefix "/etc/kes/client.crt" "/etc/kes/missing.key",
     Exited "failed to load TLS private key: open /etc/kes/missing.key: no such file or directory").
Proof.
  refine (key_file_unreadable Double.lib Double.withMissingKey false
            "/etc/kes/client.crt" "/etc/kes/missing.key"
            (list_byte_of_string "NCC") (list_byte_of_string "CC")
            (errors.New 7 "open /etc/kes/missing.key: no such file or directory")
            _ _ _ _ _ _ _ _);
    try (vm_compute; reflexivity); vm_compute; discriminate.
Defined.

(** X4 with a key file that holds a note and two certificates. *)
Lemma key_file_without_private_key_witness :
  newClient Double.lib Double.withCertAsKey false =
    (filePairPrefix "/etc/kes/client.crt" "/etc/kes/client.crt",
     Exited "failed to read TLS private key: no PEM-encoded private key found").
Proof.
  refine (key_file_without_private_key Double.lib Double.withCertAsKey false
            "/etc/kes/client.crt" "/etc/kes/client.crt"
            (list_byte_of_string "NCC") (list_byte_of_string "CC")
            (list_byte_of_string "NCC")
            Double_Decode_consumes _ _ _ _ _ _ _ _ _);
    try (vm_compute; reflexivity); try (vm_compute; discriminate).
  apply find_noneWanted. vm_compute. reflexivity.
Defined.

(** X5 with a plain RSA key behind a certificate in the key file. *)
Lemma plain_key_witness :
  newClient Double.lib Double.withFiles false =
    (filePairPrefix "/etc/kes/client.crt" "/etc/kes/client.key"
       ++ [EvX509KeyPair; EvLookupEnv EnvServer],
     Returned (kes.NewClientWithConfig "https://127.0.0.1:7373"
                 (clientConfig "CC+CR" false))).
Proof.
  exact (plain_key_goes_unchanged Double.lib Double.withFiles false
           _ _ _ _ _ Double_plain_path (or_introl eq_refl)).
Defined.

(** X6 with the right password: the certificate of the key file is gone. *)
Lemma unlocked_key_witness :
  outcome (newClient Double.lib (Double.lockedAtTerminal Double.secret) false) =
    Returned (kes.NewClientWithConfig "https://127.0.0.1:7373"
                (clientConfig "CC+R" false)).
Proof.
  exact (unlocked_key_is_reencoded Double.lib
           (Double.lockedAtTerminal Double.secret) false
           _ _ _ _ _ Double.secret ["E"%byte]
           (Double_locked_path true (Ok Double.secret))
           eq_refl eq_refl eq_refl).
Defined.

(** X7 with a space in front of the certificate path. *)
Lemma paths_untrimmed_witness :
  exists rest,
    trace (newClient Double.lib Double.withSpaceBeforeCert false) =
      [EvLookupEnv EnvAPIKey; EvLookupEnv EnvClientCert;
       EvLookupEnv EnvClientKey; EvReadFile " /etc/kes/client.crt"] ++ rest
    /\ Forall (fun e => forall name,
                   e = EvReadFile name -> name = "/etc/kes/client.key")
              rest.
Proof.
  apply (paths_are_read_untrimmed Double.lib Double.withSpaceBeforeCert false);
    vm_compute; reflexivity.
Defined.

(** X10 with no variable set and a name given. *)
Lemma newEnclave_failure_witness :
  newEnclave Double.lib Double.withNothing "tenant-2" false =
    ([EvLookupEnv EnvAPIKey; EvLookupEnv EnvClientCert],
     Exited "no TLS client certificate. Environment variable 'KES_CLIENT_CERT' is not set").
Proof.
  refine (newEnclave_fails_as_newClient Double.lib Double.withNothing false
            "tenant-2" _ _).
  vm_compute. reflexivity.
Defined.

(** X11 with the enclave taken from the environment. *)
Lemma newEnclave_name_witness :
  newEnclave Double.lib Double.withEnclave "" true =
    ([EvLookupEnv EnvAPIKey; EvLookupEnv EnvClientCert;
      EvLookupEnv EnvClientKey; EvParseAPIKey Double.apiKey;
      EvGenerateCertificate; EvLookupEnv EnvServer; EvLookupEnv "KES_ENCLAVE"],
     Returned (kes.Client_Enclave
                 (kes.NewClientWithConfig "https://127.0.0.1:7373"
                    (clientConfig "derived from kes:v1:AAEC" true))
                 "tenant-1")).
Proof.
  refine (proj2 (newEnclave_name Double.lib Double.withEnclave true "" _ _) _);
    vm_compute; reflexivity.
Defined.

(** X12 with a certificate in front of an RSA key. *)
Lemma decodePrivateKey_skips_witness :
  decodePrivateKey Double.lib (list_byte_of_string "CR") =
    decodePrivateKey Double.lib (list_byte_of_string "R").
Proof.
  refine (decodePrivateKey_skips_other_blocks Double.lib Double_Decode_consumes
            (list_byte_of_string "CR") (list_byte_of_string "R")
            (Double.block "CERTIFICATE" ∅ "C"%byte) _ _ _).
  - vm_compute. reflexivity.
  - discriminate.
  - apply isPrivateKeyType_unwanted. vm_compute. reflexivity.
Defined.
